(** * trackme: the location-tracking backend of [app.py]

    A shallow embedding of the request handlers of [app.py]
    ([is_within_philippines], [get_address_from_coordinates],
    [save_location], [get_locations] and the start-up code that binds
    [database]) together with the properties its specification states
    about them.

    Python values are an inductive type, dictionaries are association
    lists in insertion order, floats are binary64 values ([spec_float]
    with [prec = 53], [emax = 1024]), exceptions are a result type, and
    the handlers run in a small state-and-exception monad over the
    collection and the log of outbound geocoder requests. *)

From Stdlib Require Import ZArith List String Ascii Bool Lia QArith Qpower.
From Stdlib Require Import Sorting.Sorted Sorting.Permutation Sorting.Mergesort Orders.
From Stdlib Require Import Floats.SpecFloat.
Import ListNotations.

Open Scope string_scope.
Open Scope Z_scope.

#[local] Set Warnings "-register-all".

(** ** Values *)

(** The values a handler sees: what [request.get_json()] and
    [response.json()] build (None, bool, int, float, str, list, dict with
    string keys), and [datetime] for the time stamp of a record. *)
Inductive value : Type :=
| VNone
| VBool (b : bool)
| VInt (n : Z)
| VFloat (f : spec_float)
| VStr (s : string)
| VList (l : list value)
| VDict (d : list (string * value))
| VDatetime (t : Z).

Definition dict := list (string * value).

(** The name of the type of a value, as exception messages print it. *)
Definition type_name (v : value) : string :=
  match v with
  | VNone => "NoneType"
  | VBool _ => "bool"
  | VInt _ => "int"
  | VFloat _ => "float"
  | VStr _ => "str"
  | VList _ => "list"
  | VDict _ => "dict"
  | VDatetime _ => "datetime.datetime"
  end.

(** ** Exceptions *)

(** The classes the code names in an [except] clause or that [float] and
    attribute access raise, and [Error] for every other subclass of
    [Exception] (driver, network and HTTP errors), by class name.  Each
    carries [str(e)]. *)
Inductive exn : Type :=
| ValueError (msg : string)
| TypeError (msg : string)
| OverflowError (msg : string)
| AttributeError (msg : string)
| Error (cls msg : string).

(** [str(e)] *)
Definition exn_str (e : exn) : string :=
  match e with
  | ValueError m | TypeError m | OverflowError m | AttributeError m => m
  | Error _ m => m
  end.

Inductive result (A : Type) : Type :=
| Ok (a : A)
| Raise (e : exn).
Arguments Ok {A} a.
Arguments Raise {A} e.

Definition rbind {A B} (r : result A) (k : A -> result B) : result B :=
  match r with
  | Ok a => k a
  | Raise e => Raise e
  end.

(** ** Dictionaries *)

Fixpoint dict_get (k : string) (d : dict) : option value :=
  match d with
  | [] => None
  | (k', v) :: d' => if String.eqb k k' then Some v else dict_get k d'
  end.

(** [v.get(k, default)]: only a dict has the method. *)
Definition py_get (v : value) (k : string) (default : value) : result value :=
  match v with
  | VDict d =>
      Ok match dict_get k d with
         | Some x => x
         | None => default
         end
  | _ => Raise (AttributeError ("'" ++ type_name v ++ "' object has no attribute 'get'"))
  end.

(** ** Floats *)

Definition prec : Z := 53.
Definition emax : Z := 1024.

Definition float_of_Z (n : Z) : spec_float := binary_normalize prec emax n 0 false.

(** The literals of [is_within_philippines]. *)
Definition f4_5 : spec_float := Eval cbv in binary_normalize prec emax 9 (-1) false.
Definition f21_5 : spec_float := Eval cbv in binary_normalize prec emax 43 (-1) false.
Definition f116_0 : spec_float := Eval cbv in float_of_Z 116.
Definition f127_0 : spec_float := Eval cbv in float_of_Z 127.

(** [a <= b] on floats: false as soon as one side is NaN. *)
Definition float_le (a b : spec_float) : bool := SFleb a b.

Section Interpreter.

(** The interpreter's conversion of a string to a float: [None] where
    [float(s)] raises [ValueError]. *)
Variable float_of_string : string -> option spec_float.

(** [float(v)]: an int is rounded to the nearest float and is refused when
    that is no finite float; a bool counts as the int 0 or 1.  (The
    message of [ValueError] quotes the string as [repr] does one without
    quotes or escapes.) *)
Definition py_float (v : value) : result spec_float :=
  match v with
  | VFloat f => Ok f
  | VInt n =>
      match float_of_Z n with
      | S754_infinity _ => Raise (OverflowError "int too large to convert to float")
      | f => Ok f
      end
  | VBool b => Ok (float_of_Z (if b then 1 else 0))
  | VStr s =>
      match float_of_string s with
      | Some f => Ok f
      | None => Raise (ValueError ("could not convert string to float: '" ++ s ++ "'"))
      end
  | _ =>
      Raise (TypeError ("float() argument must be a string or a real number, not '"
                          ++ type_name v ++ "'"))
  end.

(** [is_within_philippines(lat, lon)]: the [try] body, then the handler of
    [except (ValueError, TypeError)]; any other exception leaves the
    function. *)
Definition is_within_philippines_body (lat lon : value) : result bool :=
  rbind (py_float lat) (fun lat =>
  rbind (py_float lon) (fun lon =>
  Ok ((float_le f4_5 lat && float_le lat f21_5) &&
      (float_le f116_0 lon && float_le lon f127_0)))).

Definition is_within_philippines (lat lon : value) : result bool :=
  match is_within_philippines_body lat lon with
  | Raise (ValueError _) | Raise (TypeError _) => Ok false
  | r => r
  end.

End Interpreter.

(** ** The world of a request *)

(** A [bson.ObjectId], by the 24 hexadecimal digits [str] prints. *)
Record ObjectId : Type := { oid_str : string }.

(** A document of the [locations] collection: the [_id] the driver gave
    it and the fields the handler wrote. *)
Record document : Type := { doc_id : ObjectId; fields : dict }.

(** A request [requests.get] sends. *)
Record http_request : Type := { url : string; params : dict; headers : dict }.

(** What comes back when no exception is raised: the status code and what
    [response.json()] gives, a value or the exception of the decoder. *)
Record http_response : Type := { status_code : Z; json : result value }.

(** What one request meets outside the process: the body as
    [request.get_json()] hands it over (or the exception it raises), the
    reply of the geocoding service (or the exception of [requests.get]),
    the clock, the identifier the driver generates for an insert, and the
    exception the driver raises when it operates on the collection, the
    server out of reach or the operation refused ([None] when the
    operation completes). *)
Record environment : Type := {
  get_json : result value;
  nominatim : result http_response;
  utcnow : Z;
  new_oid : ObjectId;
  store_fault : option exn
}.

(** What the handlers change: the collection, in insertion order, and the
    requests sent to the geocoding service. *)
Record world : Type := { collection : list document; outbound : list http_request }.

(** State and exceptions: an exception keeps the effects made so far. *)
Definition M (A : Type) : Type := world -> result A * world.

Definition ret {A} (a : A) : M A := fun w => (Ok a, w).

Definition bind {A B} (m : M A) (k : A -> M B) : M B :=
  fun w =>
    match m w with
    | (Ok a, w') => k a w'
    | (Raise e, w') => (Raise e, w')
    end.

Definition lift {A} (r : result A) : M A := fun w => (r, w).

(** [try: m  except Exception as e: h e] *)
Definition try_except {A} (m : M A) (h : exn -> M A) : M A :=
  fun w =>
    match m w with
    | (Ok a, w') => (Ok a, w')
    | (Raise e, w') => h e w'
    end.

Notation "x <- m ;; k" := (bind m (fun x => k))
  (at level 61, m at next level, right associativity).

(** ** The geocoder client *)

Fixpoint contains (k s : string) : bool :=
  String.prefix k s ||
  match s with
  | EmptyString => false
  | String _ s' => contains k s'
  end.

(** [k in v] for a string [k]: a key of a dict, an element of a list, a
    substring of a string; the other values are not containers. *)
Definition py_in (k : string) (v : value) : result bool :=
  match v with
  | VDict d => Ok match dict_get k d with Some _ => true | None => false end
  | VList l =>
      Ok (existsb (fun x => match x with VStr s => String.eqb k s | _ => false end) l)
  | VStr s => Ok (contains k s)
  | _ => Raise (TypeError ("argument of type '" ++ type_name v ++ "' is not iterable"))
  end.

Definition requests_get (env : environment) (rq : http_request) : M http_response :=
  fun w =>
    (nominatim env, {| collection := collection w; outbound := outbound w ++ [rq] |}).

(** The two fallback records of the client. *)
Definition location_not_found : value :=
  VDict [("full_address", VStr "Location not found")].
Definition location_lookup_failed : value :=
  VDict [("full_address", VStr "Location lookup failed")].

(** [get_address_from_coordinates(latitude, longitude)]: the [try] body,
    then the handler of [except Exception], which logs and returns the
    second fallback (the log is not modelled). *)
Definition get_address_from_coordinates_body
  (env : environment) (latitude longitude : value) : M value :=
  let url := "https://nominatim.openstreetmap.org/reverse" in
  let params := [("lat", latitude); ("lon", longitude);
                 ("format", VStr "json"); ("addressdetails", VInt 1)] in
  let headers := [("User-Agent", VStr "LocationTrackerApp/1.0")] in
  response <- requests_get env {| url := url; params := params; headers := headers |} ;;
  if status_code response =? 200 then
    data <- lift (json response) ;;
    has_name <- lift (py_in "display_name" data) ;;
    if has_name then
      full_address <- lift (py_get data "display_name" (VStr "Unknown Location")) ;;
      address_components <- lift (py_get data "address" (VDict [])) ;;
      city <- lift (py_get address_components "city" (VStr "")) ;;
      province <- lift (py_get address_components "province" (VStr "")) ;;
      country <- lift (py_get address_components "country" (VStr "")) ;;
      postcode <- lift (py_get address_components "postcode" (VStr "")) ;;
      ret (VDict [("full_address", full_address);
                  ("city", city);
                  ("province", province);
                  ("country", country);
                  ("postcode", postcode)])
    else ret location_not_found
  else ret location_not_found.

Definition get_address_from_coordinates (env : environment) (latitude longitude : value)
  : M value :=
  try_except
    (get_address_from_coordinates_body env latitude longitude)
    (fun e => ret location_lookup_failed).

(** ** The store *)

(** The handle [get_mongodb_connection] returns. *)
Record Database : Type := { db_name : string }.

(** [get_mongodb_connection()]: [MONGO_URI] is the environment variable,
    [connect] is the outcome of building the client and of the
    [ismaster] command. *)
Definition get_mongodb_connection (MONGO_URI : option string) (connect : result unit)
  : option Database :=
  match MONGO_URI with
  | None | Some "" => None
  | Some _ =>
      match connect with
      | Ok _ => Some {| db_name := "location_tracker" |}
      | Raise _ => None
      end
  end.

(** The module either leaves with an exit code or goes on to serve with
    the global [database] bound. *)
Inductive process : Type :=
| Exited (code : Z)
| Serving (database : option Database).

Definition startup (MONGO_URI : option string) (connect : result unit) : process :=
  match get_mongodb_connection MONGO_URI connect with
  | None => Exited 1
  | Some db => Serving (Some db)
  end.

(** [locations_collection.insert_one(doc)]: the driver gives the document
    its [_id] and returns it.  The collection holds the document as the
    handler hands it over; of a date the store itself keeps the whole
    milliseconds. *)
Definition insert_one (env : environment) (doc : dict) : M ObjectId :=
  fun w =>
    match store_fault env with
    | Some e => (Raise e, w)
    | None =>
        (Ok (new_oid env),
         {| collection := collection w ++ [{| doc_id := new_oid env; fields := doc |}];
            outbound := outbound w |})
    end.

(** The key [sort('timestamp', -1)] orders by: the date of the field, and
    [None], below every date, for a document whose field is missing or is
    no date.  (The store compares the values that are no dates by type
    and then by value; here they all come last, in insertion order.) *)
Definition timestamp (d : dict) : option Z :=
  match dict_get "timestamp" d with
  | Some (VDatetime t) => Some t
  | _ => None
  end.

Definition key_leb (a b : option Z) : bool :=
  match a, b with
  | None, _ => true
  | Some _, None => false
  | Some x, Some y => x <=? y
  end.

Module TimestampDescending <: TotalLeBool.

Definition t := document.

Definition leb (a b : document) : bool :=
  key_leb (timestamp (fields b)) (timestamp (fields a)).

Lemma leb_total : forall a b, leb a b = true \/ leb b a = true.
Proof.
  intros a b. unfold leb.
  destruct (timestamp (fields a)) as [x|], (timestamp (fields b)) as [y|]; simpl; auto.
  destruct (Z.leb_spec x y); [right | left]; auto.
  apply Z.leb_le. lia.
Qed.

End TimestampDescending.

Module TimestampSort := Sort TimestampDescending.

(** [list(locations_collection.find().sort('timestamp', -1).limit(50))] *)
Definition find_recent (env : environment) : M (list document) :=
  fun w =>
    match store_fault env with
    | Some e => (Raise e, w)
    | None => (Ok (firstn 50 (TimestampSort.sort (collection w))), w)
    end.

(** ** The routes *)

Record response : Type := { body : value; status : Z }.

Definition jsonify (v : value) : value := v.

Section Routes.

Variable float_of_string : string -> option spec_float.

Definition save_location (database : option Database) (env : environment) : M response :=
  try_except
    (match database with
     | None =>
         ret {| body := jsonify (VDict [("status", VStr "error");
                                        ("message", VStr "Database connection lost")]);
                status := 500 |}
     | Some _ =>
         location_data <- lift (get_json env) ;;
         latitude <- lift (py_get location_data "latitude" VNone) ;;
         longitude <- lift (py_get location_data "longitude" VNone) ;;
         inside <- lift (is_within_philippines float_of_string latitude longitude) ;;
         if negb inside then
           ret {| body := jsonify (VDict [("status", VStr "error");
                                          ("message", VStr "Location outside Philippines")]);
                  status := 400 |}
         else
           address_info <- get_address_from_coordinates env latitude longitude ;;
           lat <- lift (py_float float_of_string latitude) ;;
           lon <- lift (py_float float_of_string longitude) ;;
           let location_doc := [("latitude", VFloat lat);
                                ("longitude", VFloat lon);
                                ("address", address_info);
                                ("timestamp", VDatetime (utcnow env))] in
           inserted_id <- insert_one env location_doc ;;
           ret {| body := jsonify (VDict [("status", VStr "success");
                                          ("message", VStr "Location saved");
                                          ("id", VStr (oid_str inserted_id));
                                          ("address", address_info)]);
                  status := 200 |}
     end)
    (fun e =>
       ret {| body := jsonify (VDict [("status", VStr "error");
                                      ("message", VStr (exn_str e))]);
              status := 500 |}).

End Routes.

(** [location['_id'] = str(location['_id'])] *)
Definition stringify_id (location : document) : dict :=
  ("_id", VStr (oid_str (doc_id location))) :: fields location.

Definition get_locations (env : environment) : M response :=
  locations <- find_recent env ;;
  let locations := map stringify_id locations in
  ret {| body := jsonify (VList (map VDict locations)); status := 200 |}.

(** [@app.errorhandler(500)]: what the framework answers when a view
    raises. *)
Definition server_error : response :=
  {| body := jsonify (VDict [("error", VStr "Internal server error")]); status := 500 |}.

Definition dispatch (view : M response) (w : world) : response * world :=
  match view w with
  | (Ok r, w') => (r, w')
  | (Raise _, w') => (server_error, w')
  end.

(** ** The number a float stands for *)

Definition valid (x : spec_float) : bool := valid_binary prec emax x.

Definition is_finite (x : spec_float) : bool :=
  match x with
  | S754_zero _ | S754_finite _ _ _ => true
  | _ => false
  end.

(** [(-1)^s * m * 2^e], and 0 for what is no finite float. *)
Definition float_value (x : spec_float) : Q :=
  match x with
  | S754_finite s m e => (inject_Z (cond_Zopp s (Zpos m)) * 2 ^ e)%Q
  | _ => 0%Q
  end.

(** [lo <= x <= hi] for a float [x]: a NaN or an infinity is in no
    interval. *)
Definition in_interval (lo hi : Q) (x : spec_float) : Prop :=
  is_finite x = true /\ (lo <= float_value x)%Q /\ (float_value x <= hi)%Q.

(** A valid finite float is a multiple of [2^-1074]: its numerator. *)
Definition scaled (x : spec_float) : Z :=
  match x with
  | S754_finite s m e => cond_Zopp s (Zpos m * 2 ^ (e + 1074))
  | _ => 0
  end.

(** The coordinates of the specification's example request (Manila). *)
Definition f14_5995 : spec_float :=
  Eval cbv in SFdiv prec emax (float_of_Z 145995) (float_of_Z 10000).
Definition f120_9842 : spec_float :=
  Eval cbv in SFdiv prec emax (float_of_Z 1209842) (float_of_Z 10000).

(** A conversion that accepts no string, for requests that carry none. *)
Definition no_strings : string -> option spec_float := fun _ => None.

(** ** Vocabulary of the statements *)

(** The request the geocoder client sends for a pair of coordinates, and
    the world once it is sent. *)
Definition reverse_request (latitude longitude : value) : http_request :=
  {| url := "https://nominatim.openstreetmap.org/reverse";
     params := [("lat", latitude); ("lon", longitude);
                ("format", VStr "json"); ("addressdetails", VInt 1)];
     headers := [("User-Agent", VStr "LocationTrackerApp/1.0")] |}.

Definition sent (rq : http_request) (w : world) : world :=
  {| collection := collection w; outbound := outbound w ++ [rq] |}.

(** The world once the driver stored [doc] under [id]. *)
Definition stored (id : ObjectId) (doc : dict) (w : world) : world :=
  {| collection := collection w ++ [{| doc_id := id; fields := doc |}];
     outbound := outbound w |}.

(** [d.get(k)] *)
Definition field (k : string) (d : dict) : value :=
  match dict_get k d with
  | Some v => v
  | None => VNone
  end.

(** The value of [d.get(k, '')] from the outcome of the lookup of [k]. *)
Definition or_empty (o : option value) : value :=
  match o with
  | Some v => v
  | None => VStr ""
  end.

(** The three shapes of a record the geocoder client returns. *)
Inductive address_record : value -> Prop :=
| address_found (full_address city province country postcode : value) :
    address_record (VDict [("full_address", full_address); ("city", city);
                           ("province", province); ("country", country);
                           ("postcode", postcode)])
| address_not_found : address_record location_not_found
| address_lookup_failed : address_record location_lookup_failed.

(** The ways a lookup fails, each with the sentinel it leaves in
    [full_address]. *)
Inductive lookup_failure (env : environment) : string -> Prop :=
| service_unreachable (e : exn) :
    nominatim env = Raise e ->
    lookup_failure env "Location lookup failed"
| bad_status (r : http_response) :
    nominatim env = Ok r -> status_code r <> 200 ->
    lookup_failure env "Location not found"
| undecodable_body (r : http_response) (e : exn) :
    nominatim env = Ok r -> status_code r = 200 -> json r = Raise e ->
    lookup_failure env "Location lookup failed"
| no_display_name (r : http_response) (d : dict) :
    nominatim env = Ok r -> status_code r = 200 -> json r = Ok (VDict d) ->
    dict_get "display_name" d = None ->
    lookup_failure env "Location not found".

(** The bodies [save_location] answers with. *)
Definition outside_response : response :=
  {| body := VDict [("status", VStr "error");
                    ("message", VStr "Location outside Philippines")];
     status := 400 |}.

Definition error_response (message : string) : response :=
  {| body := VDict [("status", VStr "error"); ("message", VStr message)]; status := 500 |}.

Definition saved_response (id : ObjectId) (address : value) : response :=
  {| body := VDict [("status", VStr "success"); ("message", VStr "Location saved");
                    ("id", VStr (oid_str id)); ("address", address)];
     status := 200 |}.

Definition location_record (lat lon : spec_float) (address : value) (now : Z) : dict :=
  [("latitude", VFloat lat); ("longitude", VFloat lon); ("address", address);
   ("timestamp", VDatetime now)].


(** ** Example requests *)

Definition manila : dict :=
  [("latitude", VFloat f14_5995); ("longitude", VFloat f120_9842)].

Definition new_york : dict :=
  [("latitude", VFloat (float_of_Z 40)); ("longitude", VFloat (float_of_Z (-74)))].

Definition manila_reply : http_response :=
  {| status_code := 200;
     json := Ok (VDict [("display_name", VStr "Manila, Capital District, Philippines");
                        ("address", VDict [("city", VStr "Manila");
                                           ("country", VStr "Philippines");
                                           ("postcode", VStr "1000")])]) |}.

Definition location_tracker : Database := {| db_name := "location_tracker" |}.

Definition an_oid : ObjectId := {| oid_str := "65f1c0ffee0123456789abcd" |}.

(** A request with the JSON object [body]: the geocoding service answers
    [reply], the store works unless [down] holds the exception of the
    driver. *)
Definition request_of (body : dict) (reply : result http_response) (down : option exn)
  : environment :=
  {| get_json := Ok (VDict body);
     nominatim := reply;
     utcnow := 1710000000000000;
     new_oid := an_oid;
     store_fault := down |}.

Definition empty_world : world := {| collection := []; outbound := [] |}.

(** ** Vocabulary of the application-level statements *)

(** The test of [is_within_philippines] on two floats. *)
Definition inside_box (lat lon : spec_float) : bool :=
  (float_le f4_5 lat && float_le lat f21_5) &&
  (float_le f116_0 lon && float_le lon f127_0).

(** [float(v)] raises [OverflowError]. *)
Definition overflows (v : value) : bool :=
  match v with
  | VInt n =>
      match float_of_Z n with
      | S754_infinity _ => true
      | _ => false
      end
  | _ => false
  end.

(** A document as [save_location] writes it: two floats inside the box, a
    record of the geocoder client and the time of the request. *)
Inductive location_document : document -> Prop :=
| location_document_intro (id : ObjectId) (lat lon : spec_float) (address : value) (now : Z) :
    inside_box lat lon = true ->
    address_record address ->
    location_document {| doc_id := id; fields := location_record lat lon address now |}.

(** The ways [save_location] ends, with the response and the world each
    leaves. *)
Inductive save_outcome (float_of_string : string -> option spec_float)
  (database : option Database) (env : environment) (w : world)
  : response -> world -> Prop :=
| outcome_no_database :
    database = None ->
    save_outcome float_of_string database env w
      (error_response "Database connection lost") w
| outcome_no_body (e : exn) :
    database <> None ->
    get_json env = Raise e ->
    save_outcome float_of_string database env w (error_response (exn_str e)) w
| outcome_not_object (v : value) :
    database <> None ->
    get_json env = Ok v ->
    (forall d, v <> VDict d) ->
    save_outcome float_of_string database env w
      (error_response ("'" ++ type_name v ++ "' object has no attribute 'get'")) w
| outcome_validator_raised (d : dict) (e : exn) :
    database <> None ->
    get_json env = Ok (VDict d) ->
    is_within_philippines float_of_string (field "latitude" d) (field "longitude" d)
      = Raise e ->
    save_outcome float_of_string database env w (error_response (exn_str e)) w
| outcome_outside (d : dict) :
    database <> None ->
    get_json env = Ok (VDict d) ->
    is_within_philippines float_of_string (field "latitude" d) (field "longitude" d)
      = Ok false ->
    save_outcome float_of_string database env w outside_response w
| outcome_store_failed (d : dict) (e : exn) :
    database <> None ->
    get_json env = Ok (VDict d) ->
    is_within_philippines float_of_string (field "latitude" d) (field "longitude" d)
      = Ok true ->
    store_fault env = Some e ->
    save_outcome float_of_string database env w (error_response (exn_str e))
      (sent (reverse_request (field "latitude" d) (field "longitude" d)) w)
| outcome_saved (d : dict) (lat lon : spec_float) (address : value) :
    database <> None ->
    get_json env = Ok (VDict d) ->
    py_float float_of_string (field "latitude" d) = Ok lat ->
    py_float float_of_string (field "longitude" d) = Ok lon ->
    inside_box lat lon = true ->
    address_record address ->
    fst (get_address_from_coordinates env (field "latitude" d) (field "longitude" d) w)
      = Ok address ->
    store_fault env = None ->
    save_outcome float_of_string database env w
      (saved_response (new_oid env) address)
      (stored (new_oid env) (location_record lat lon address (utcnow env))
         (sent (reverse_request (field "latitude" d) (field "longitude" d)) w)).

(** The two routes that touch the store, and the application handling a
    sequence of calls one after the other: the log pairs each call with
    its response. *)
Inductive http_call : Type :=
| POST_save_location (env : environment)
| GET_locations (env : environment).

Definition handle (float_of_string : string -> option spec_float)
  (database : option Database) (call : http_call) : world -> response * world :=
  match call with
  | POST_save_location env => dispatch (save_location float_of_string database env)
  | GET_locations env => dispatch (get_locations env)
  end.

Fixpoint serve (float_of_string : string -> option spec_float)
  (database : option Database) (calls : list http_call) (w : world)
  : list (http_call * response) * world :=
  match calls with
  | [] => ([], w)
  | call :: calls =>
      let (r, w1) := handle float_of_string database call w in
      let (log, w2) := serve float_of_string database calls w1 in
      ((call, r) :: log, w2)
  end.

(** A save that succeeded, in a log. *)
Definition saved (entry : http_call * response) : bool :=
  match entry with
  | (POST_save_location _, r) => status r =? 200
  | (GET_locations _, _) => false
  end.

(** The lookups a call sends: one, with the coordinates as the body holds
    them, for a save whose coordinates the validator accepts. *)
Definition lookups (float_of_string : string -> option spec_float)
  (database : option Database) (call : http_call) : list http_request :=
  match database, call with
  | Some _, POST_save_location env =>
      match get_json env with
      | Ok (VDict d) =>
          match is_within_philippines float_of_string
                  (field "latitude" d) (field "longitude" d) with
          | Ok true => [reverse_request (field "latitude" d) (field "longitude" d)]
          | _ => []
          end
      | _ => []
      end
  | _, _ => []
  end.

(** The Manila request once saved into the empty world: the address of
    the reply, the world, and the record as the list shows it. *)
Definition manila_address : value :=
  VDict [("full_address", VStr "Manila, Capital District, Philippines");
         ("city", VStr "Manila");
         ("province", VStr "");
         ("country", VStr "Philippines");
         ("postcode", VStr "1000")].

Definition manila_saved : world :=
  stored an_oid (location_record f14_5995 f120_9842 manila_address 1710000000000000)
    (sent (reverse_request (VFloat f14_5995) (VFloat f120_9842)) empty_world).

Definition manila_listed : response :=
  {| body :=
       VList [VDict (("_id", VStr "65f1c0ffee0123456789abcd")
                       :: location_record f14_5995 f120_9842 manila_address
                            1710000000000000)];
     status := 200 |}.

(** ** Vocabulary of the statements on time stamps and on the [try] body *)

(** Between two documents that both carry a date, [a] is at least as
    recent as [b].  (How the store places a document whose [timestamp] is
    no date is left open.) *)
Definition dated_no_older (a b : dict) : Prop :=
  forall ta tb, timestamp a = Some ta -> timestamp b = Some tb -> tb <= ta.

(** The millisecond of a time in microseconds: what the store keeps of a
    date. *)
Definition millisecond (t : Z) : Z := t / 1000.

(** The [try] body of [save_location], lines 131 to 169. *)
Definition save_location_body (float_of_string : string -> option spec_float)
  (database : option Database) (env : environment) : M response :=
  match database with
  | None =>
      ret {| body := jsonify (VDict [("status", VStr "error");
                                     ("message", VStr "Database connection lost")]);
             status := 500 |}
  | Some _ =>
      location_data <- lift (get_json env) ;;
      latitude <- lift (py_get location_data "latitude" VNone) ;;
      longitude <- lift (py_get location_data "longitude" VNone) ;;
      inside <- lift (is_within_philippines float_of_string latitude longitude) ;;
      if negb inside then
        ret {| body := jsonify (VDict [("status", VStr "error");
                                       ("message", VStr "Location outside Philippines")]);
               status := 400 |}
      else
        address_info <- get_address_from_coordinates env latitude longitude ;;
        lat <- lift (py_float float_of_string latitude) ;;
        lon <- lift (py_float float_of_string longitude) ;;
        let location_doc := [("latitude", VFloat lat);
                             ("longitude", VFloat lon);
                             ("address", address_info);
                             ("timestamp", VDatetime (utcnow env))] in
        inserted_id <- insert_one env location_doc ;;
        ret {| body := jsonify (VDict [("status", VStr "success");
                                       ("message", VStr "Location saved");
                                       ("id", VStr (oid_str inserted_id));
                                       ("address", address_info)]);
               status := 200 |}
  end.

(** ** A collection of more than 50 documents *)

Definition three_digits (n : nat) : string :=
  String (ascii_of_nat (48 + (n / 100) mod 10))
    (String (ascii_of_nat (48 + (n / 10) mod 10))
       (String (ascii_of_nat (48 + n mod 10)) EmptyString)).

Definition sample_oid (n : nat) : ObjectId :=
  {| oid_str := "65f1c0ffee0123456789a" ++ three_digits n |}.

(** The Manila record saved [n] seconds after the first. *)
Definition sample_document (n : nat) : document :=
  {| doc_id := sample_oid n;
     fields := location_record f14_5995 f120_9842 manila_address
                 (1710000000000000 + Z.of_nat n * 1000000) |}.

(** 52 of them, inserted out of order. *)
Definition sample_collection : list document :=
  map (fun k => sample_document ((k * 37) mod 52)) (seq 0 52).

Definition sample_world : world := {| collection := sample_collection; outbound := [] |}.

(** A second Manila request, a millisecond and a half after the first, the
    geocoding service out of reach. *)
Definition second_request : environment :=
  {| get_json := Ok (VDict manila);
     nominatim := Raise (Error "ConnectionError" "Max retries exceeded");
     utcnow := 1710000000001500;
     new_oid := {| oid_str := "65f1c0ffee0123456789abce" |};
     store_fault := None |}.

(** * Properties *)

(** ** Comparison of floats *)

(** A positive number of [d] binary digits lies in [2^(d-1), 2^d). *)
Lemma digits2_pos_bounds (m : positive) :
  2 ^ (Zpos (digits2_pos m) - 1) <= Zpos m < 2 ^ Zpos (digits2_pos m).
Proof.
  induction m as [m IH | m IH |]; cbn [digits2_pos]; [ | | cbn; lia];
    rewrite Pos2Z.inj_succ;
    replace (Z.succ (Zpos (digits2_pos m)) - 1)
      with (Z.succ (Zpos (digits2_pos m) - 1)) by lia;
    rewrite !Z.pow_succ_r by lia; lia.
Qed.

(** A valid binary64 value: the exponent range, at most 53 digits, and
    exactly 53 above the least exponent. *)
Lemma valid_finite_inv s m e :
  valid (S754_finite s m e) = true ->
  -1074 <= e <= 971 /\ Zpos m < 2 ^ 53 /\ (-1074 < e -> 2 ^ 52 <= Zpos m).
Proof.
  unfold valid, valid_binary, bounded, canonical_mantissa, fexp, SpecFloat.emin, prec, emax.
  intros H. apply andb_prop in H as [H1 H2].
  apply Z.eqb_eq in H1. apply Z.leb_le in H2.
  pose proof (digits2_pos_bounds m) as [Hlo Hhi].
  assert (Hd : Zpos (digits2_pos m) <= 53) by lia.
  split; [lia|]. split.
  - eapply Z.lt_le_trans; [exact Hhi|]. apply Z.pow_le_mono_r; lia.
  - intros He. assert (Zpos (digits2_pos m) = 53) by lia.
    rewrite H in Hlo. exact Hlo.
Qed.

(** Among valid positive floats the smaller exponent is the smaller
    number. *)
Lemma scaled_pos_lt m1 e1 m2 e2 :
  valid (S754_finite false m1 e1) = true ->
  valid (S754_finite false m2 e2) = true ->
  e1 < e2 ->
  Zpos m1 * 2 ^ (e1 + 1074) < Zpos m2 * 2 ^ (e2 + 1074).
Proof.
  intros V1 V2 He.
  apply valid_finite_inv in V1 as (R1 & U1 & _).
  apply valid_finite_inv in V2 as (R2 & _ & L2).
  specialize (L2 ltac:(lia)).
  assert (P1 : 0 < 2 ^ (e1 + 1074)) by (apply Z.pow_pos_nonneg; lia).
  assert (Hp : 2 * 2 ^ (e1 + 1074) <= 2 ^ (e2 + 1074)).
  { rewrite <- Z.pow_succ_r by lia. apply Z.pow_le_mono_r; lia. }
  change (2 ^ 53) with (2 ^ 52 * 2) in U1.
  remember (2 ^ 52) as K. remember (2 ^ (e1 + 1074)) as A.
  remember (2 ^ (e2 + 1074)) as B.
  assert (0 < K) by (subst K; reflexivity).
  nia.
Qed.

Lemma compare_scaled_pos m1 e1 m2 e2 :
  valid (S754_finite false m1 e1) = true ->
  valid (S754_finite false m2 e2) = true ->
  match e1 ?= e2 with
  | Lt => Lt
  | Gt => Gt
  | Eq => Pos.compare_cont Eq m1 m2
  end = (Zpos m1 * 2 ^ (e1 + 1074) ?= Zpos m2 * 2 ^ (e2 + 1074)).
Proof.
  intros V1 V2. destruct (Z.compare_spec e1 e2) as [E | L | G].
  - subst e2. apply valid_finite_inv in V1 as (R1 & _).
    assert (P1 : 0 < 2 ^ (e1 + 1074)) by (apply Z.pow_pos_nonneg; lia).
    rewrite <- Zmult_compare_compat_r by lia. reflexivity.
  - symmetry. apply Z.compare_lt_iff. now apply scaled_pos_lt.
  - symmetry. apply Z.compare_gt_iff. now apply scaled_pos_lt.
Qed.

Lemma magnitude_pos s m e :
  valid (S754_finite s m e) = true -> 0 < Zpos m * 2 ^ (e + 1074).
Proof.
  intros V. apply valid_finite_inv in V as (R & _).
  apply Z.mul_pos_pos; [lia|]. apply Z.pow_pos_nonneg; lia.
Qed.

(** The comparison of two valid finite floats is that of their
    numerators. *)
Lemma SFcompare_scaled (a b : spec_float) :
  valid a = true -> valid b = true ->
  is_finite a = true -> is_finite b = true ->
  SFcompare a b = Some (scaled a ?= scaled b).
Proof.
  intros Va Vb Fa Fb.
  destruct a as [sa | sa | | sa ma ea]; try discriminate;
    destruct b as [sb | sb | | sb mb eb]; try discriminate; cbn [SFcompare scaled].
  - reflexivity.
  - pose proof (magnitude_pos sb mb eb Vb).
    destruct sb; cbn [cond_Zopp]; f_equal; symmetry.
    + apply Z.compare_gt_iff. lia.
    + apply Z.compare_lt_iff. lia.
  - pose proof (magnitude_pos sa ma ea Va).
    destruct sa; cbn [cond_Zopp]; f_equal; symmetry.
    + apply Z.compare_lt_iff. lia.
    + apply Z.compare_gt_iff. lia.
  - pose proof (magnitude_pos sa ma ea Va). pose proof (magnitude_pos sb mb eb Vb).
    destruct sa, sb; cbn [cond_Zopp]; f_equal.
    + rewrite Z.compare_opp, <- (compare_scaled_pos mb eb ma ea) by assumption.
      rewrite (Z.compare_antisym ea eb).
      destruct (ea ?= eb); cbn [CompOpp]; try reflexivity.
      rewrite Pos.compare_cont_antisym. reflexivity.
    + symmetry. apply Z.compare_lt_iff. lia.
    + symmetry. apply Z.compare_gt_iff. lia.
    + apply compare_scaled_pos; assumption.
Qed.

Lemma float_value_scaled (x : spec_float) :
  valid x = true ->
  (float_value x * inject_Z (2 ^ 1074) == inject_Z (scaled x))%Q.
Proof.
  destruct x as [s | s | | s m e]; cbn [float_value scaled]; intros V;
    try (rewrite Qmult_0_l; reflexivity).
  apply valid_finite_inv in V as (R & _).
  assert (E : cond_Zopp s (Zpos m * 2 ^ (e + 1074)) = cond_Zopp s (Zpos m) * 2 ^ (e + 1074)).
  { destruct s; cbn [cond_Zopp]; lia. }
  rewrite E, inject_Z_mult, <- Qmult_assoc.
  apply Qmult_comp; [reflexivity|].
  rewrite !Zpower_Qpower by lia.
  rewrite Qpower_plus by discriminate. reflexivity.
Qed.

(** [<=] on valid finite floats is [<=] on the numbers they stand for. *)
Lemma float_le_correct (a b : spec_float) :
  valid a = true -> valid b = true ->
  is_finite a = true -> is_finite b = true ->
  float_le a b = true <-> (float_value a <= float_value b)%Q.
Proof.
  intros Va Vb Fa Fb.
  unfold float_le, SFleb. rewrite (SFcompare_scaled a b Va Vb Fa Fb).
  assert (K : (0 < inject_Z (2 ^ 1074))%Q).
  { rewrite <- (Zlt_Qlt 0). apply Z.pow_pos_nonneg; lia. }
  rewrite <- (Qmult_le_r _ _ _ K).
  rewrite (float_value_scaled a Va), (float_value_scaled b Vb), <- Zle_Qle.
  destruct (Z.compare_spec (scaled a) (scaled b)); split; intros; try lia; discriminate.
Qed.

Lemma float_interval_correct (lo hi x : spec_float) :
  valid lo = true -> valid hi = true -> valid x = true ->
  is_finite lo = true -> is_finite hi = true ->
  float_le lo x && float_le x hi = true <->
  in_interval (float_value lo) (float_value hi) x.
Proof.
  intros Vlo Vhi Vx Flo Fhi. unfold in_interval.
  destruct (is_finite x) eqn:Fx.
  - rewrite andb_true_iff.
    rewrite (float_le_correct lo x), (float_le_correct x hi) by assumption.
    tauto.
  - split; [|intros [H _]; discriminate].
    destruct x as [s | s | | s m e]; try discriminate;
      destruct lo as [? | ? | | ? ? ?]; try discriminate;
      destruct hi as [? | ? | | ? ? ?]; try discriminate;
      destruct s; cbn; intros; discriminate.
Qed.

Lemma latitude_interval (x : spec_float) :
  valid x = true ->
  float_le f4_5 x && float_le x f21_5 = true <-> in_interval (9 # 2) (43 # 2) x.
Proof.
  intros V. rewrite (float_interval_correct f4_5 f21_5 x) by (assumption || reflexivity).
  unfold in_interval.
  assert (E1 : (float_value f4_5 == 9 # 2)%Q) by reflexivity.
  assert (E2 : (float_value f21_5 == 43 # 2)%Q) by reflexivity.
  rewrite E1, E2. tauto.
Qed.

Lemma longitude_interval (y : spec_float) :
  valid y = true ->
  float_le f116_0 y && float_le y f127_0 = true <-> in_interval 116 127 y.
Proof.
  intros V. rewrite (float_interval_correct f116_0 f127_0 y) by (assumption || reflexivity).
  unfold in_interval.
  assert (E1 : (float_value f116_0 == 116)%Q) by reflexivity.
  assert (E2 : (float_value f127_0 == 127)%Q) by reflexivity.
  rewrite E1, E2. tauto.
Qed.

(** ** The region validator *)

(** C2. When both arguments convert to floats, [is_within_philippines]
    returns, and it returns [True] exactly when the latitude lies in
    [4.5, 21.5] and the longitude in [116.0, 127.0]; it returns [False] as
    soon as one of them lies outside its interval. *)
Theorem is_within_philippines_bounding_box
  (float_of_string : string -> option spec_float) (lat lon : value) (x y : spec_float) :
  py_float float_of_string lat = Ok x ->
  py_float float_of_string lon = Ok y ->
  valid x = true -> valid y = true ->
  exists b : bool,
    is_within_philippines float_of_string lat lon = Ok b /\
    (b = true <-> in_interval (9 # 2) (43 # 2) x /\ in_interval 116 127 y).
Proof.
  intros Hx Hy Vx Vy.
  unfold is_within_philippines, is_within_philippines_body.
  rewrite Hx, Hy. cbn [rbind].
  eexists. split; [reflexivity|].
  rewrite andb_true_iff, (latitude_interval x Vx), (longitude_interval y Vy).
  tauto.
Qed.

Lemma is_within_philippines_bounding_box_manila :
  py_float no_strings (VFloat f14_5995) = Ok f14_5995 /\
  py_float no_strings (VInt 121) = Ok (float_of_Z 121) /\
  valid f14_5995 = true /\ valid (float_of_Z 121) = true /\
  exists b : bool,
    is_within_philippines no_strings (VFloat f14_5995) (VInt 121) = Ok b /\
    (b = true <->
     in_interval (9 # 2) (43 # 2) f14_5995 /\ in_interval 116 127 (float_of_Z 121)).
Proof.
  repeat (split; [reflexivity|]).
  apply (is_within_philippines_bounding_box no_strings
           (VFloat f14_5995) (VInt 121) f14_5995 (float_of_Z 121));
    reflexivity.
Defined.

(** The spec's two sample coordinates: Manila is inside the box, New York
    is not. *)
Example is_within_philippines_samples :
  is_within_philippines no_strings (field "latitude" manila) (field "longitude" manila)
    = Ok true /\
  is_within_philippines no_strings (field "latitude" new_york) (field "longitude" new_york)
    = Ok false.
Proof. split; reflexivity. Qed.

(** What leaves the validator is the [OverflowError] of an int that rounds
    to no finite float, and nothing else. *)
Lemma py_float_raises (float_of_string : string -> option spec_float) (v : value) (e : exn) :
  py_float float_of_string v = Raise e ->
  match e with
  | OverflowError _ => exists n, v = VInt n /\ is_finite (float_of_Z n) = false
  | ValueError _ => exists s, v = VStr s /\ float_of_string s = None
  | TypeError _ => True
  | _ => False
  end.
Proof.
  destruct v; cbn; try (intros [= <-]; exact I); try discriminate.
  - destruct (float_of_Z n) eqn:E; try discriminate.
    intros [= <-]. exists n. rewrite E. auto.
  - destruct (float_of_string s) eqn:E; try discriminate.
    intros [= <-]. eauto.
Qed.

Lemma is_within_philippines_raises
  (float_of_string : string -> option spec_float) (lat lon : value) (e : exn) :
  is_within_philippines float_of_string lat lon = Raise e ->
  e = OverflowError "int too large to convert to float" /\
  exists n, (lat = VInt n \/ lon = VInt n) /\ is_finite (float_of_Z n) = false.
Proof.
  unfold is_within_philippines, is_within_philippines_body.
  destruct (py_float float_of_string lat) as [x | ex] eqn:Ex; cbn.
  - destruct (py_float float_of_string lon) as [y | ey] eqn:Ey; cbn; [discriminate|].
    pose proof (py_float_raises _ _ _ Ey) as H.
    destruct ey; try discriminate; try contradiction.
    intros [= <-]. destruct H as (n & -> & Hn). split; [|eauto].
    cbn in Ey. destruct (float_of_Z n); congruence.
  - pose proof (py_float_raises _ _ _ Ex) as H.
    destruct ex; try discriminate; try contradiction.
    intros [= <-]. destruct H as (n & -> & Hn). split; [|eauto].
    cbn in Ex. destruct (float_of_Z n); congruence.
Qed.

(** C3 (the code departs from it). An int of 401 digits for the latitude:
    [float] raises [OverflowError], which [except (ValueError, TypeError)]
    does not catch, so the validator raises instead of returning
    [False]. *)
Theorem is_within_philippines_overflow_escapes
  (float_of_string : string -> option spec_float) :
  is_within_philippines float_of_string (VInt (10 ^ 400)) (VInt 121)
  = Raise (OverflowError "int too large to convert to float").
Proof. vm_compute. reflexivity. Qed.

(** Apart from that overflow the validator is total, and an argument that
    [float] refuses with [ValueError] or [TypeError] makes it [False]. *)
Theorem is_within_philippines_total_without_overflow
  (float_of_string : string -> option spec_float) (lat lon : value) :
  (forall n, lat = VInt n \/ lon = VInt n -> is_finite (float_of_Z n) = true) ->
  (exists b, is_within_philippines float_of_string lat lon = Ok b) /\
  ((forall x, py_float float_of_string lat <> Ok x) \/
   (forall y, py_float float_of_string lon <> Ok y) ->
   is_within_philippines float_of_string lat lon = Ok false).
Proof.
  intros Hfin.
  assert (Hret : exists b, is_within_philippines float_of_string lat lon = Ok b).
  { destruct (is_within_philippines float_of_string lat lon) as [b | e] eqn:E; [eauto|].
    apply is_within_philippines_raises in E as (_ & n & Hn & Hinf).
    rewrite (Hfin n Hn) in Hinf. discriminate. }
  split; [exact Hret|].
  destruct Hret as (b & Hb). rewrite Hb. intros Hno.
  revert Hb. unfold is_within_philippines, is_within_philippines_body.
  destruct (py_float float_of_string lat) as [x | ex]; cbn.
  - destruct (py_float float_of_string lon) as [y | ey]; cbn.
    + destruct Hno as [H | H]; [destruct (H x) | destruct (H y)]; reflexivity.
    + destruct ey; congruence.
  - destruct ex; congruence.
Qed.

Lemma is_within_philippines_total_without_overflow_null :
  (forall n, VNone = VInt n \/ VStr "abc" = VInt n -> is_finite (float_of_Z n) = true) /\
  (exists b, is_within_philippines no_strings VNone (VStr "abc") = Ok b) /\
  ((forall x, py_float no_strings VNone <> Ok x) \/
   (forall y, py_float no_strings (VStr "abc") <> Ok y) ->
   is_within_philippines no_strings VNone (VStr "abc") = Ok false).
Proof.
  assert (H : forall n, VNone = VInt n \/ VStr "abc" = VInt n ->
                        is_finite (float_of_Z n) = true).
  { intros n [E | E]; discriminate E. }
  split; [exact H|].
  exact (is_within_philippines_total_without_overflow no_strings VNone (VStr "abc") H).
Defined.

(** ** The geocoder client *)

(** The client, case by case: every path sends the one request and
    returns; an exception anywhere in the [try] body ends in
    [location_lookup_failed]. *)
Lemma get_address_from_coordinates_cases
  (env : environment) (latitude longitude : value) (w : world) :
  get_address_from_coordinates env latitude longitude w =
  (Ok match nominatim env with
      | Raise _ => location_lookup_failed
      | Ok response =>
          if status_code response =? 200 then
            match json response with
            | Raise _ => location_lookup_failed
            | Ok data =>
                match py_in "display_name" data with
                | Raise _ => location_lookup_failed
                | Ok false => location_not_found
                | Ok true =>
                    match
                      rbind (py_get data "display_name" (VStr "Unknown Location"))
                        (fun full_address =>
                      rbind (py_get data "address" (VDict []))
                        (fun address_components =>
                      rbind (py_get address_components "city" (VStr "")) (fun city =>
                      rbind (py_get address_components "province" (VStr "")) (fun province =>
                      rbind (py_get address_components "country" (VStr "")) (fun country =>
                      rbind (py_get address_components "postcode" (VStr "")) (fun postcode =>
                      Ok (VDict [("full_address", full_address); ("city", city);
                                 ("province", province); ("country", country);
                                 ("postcode", postcode)])))))))
                    with
                    | Ok address => address
                    | Raise _ => location_lookup_failed
                    end
                end
            end
          else location_not_found
      end,
   sent (reverse_request latitude longitude) w).
Proof.
  unfold get_address_from_coordinates, get_address_from_coordinates_body, try_except,
    bind, requests_get, lift, ret, sent, reverse_request.
  destruct (nominatim env) as [r | e]; cbn; [|reflexivity].
  destruct (status_code r =? 200); cbn; [|reflexivity].
  destruct (json r) as [data | e]; cbn; [|reflexivity].
  destruct (py_in "display_name" data) as [[|] | e]; cbn; try reflexivity.
  destruct (py_get data "display_name" (VStr "Unknown Location")) as [full_address | e];
    cbn; [|reflexivity].
  destruct (py_get data "address" (VDict [])) as [components | e]; cbn; [|reflexivity].
  destruct components; reflexivity.
Qed.

Lemma get_address_from_coordinates_run
  (env : environment) (latitude longitude : value) (w : world) :
  exists address,
    address_record address /\
    get_address_from_coordinates env latitude longitude w =
      (Ok address, sent (reverse_request latitude longitude) w).
Proof.
  rewrite get_address_from_coordinates_cases.
  eexists. split; [|reflexivity].
  destruct (nominatim env) as [r | e]; [|constructor].
  destruct (status_code r =? 200); [|constructor].
  destruct (json r) as [data | e]; [|constructor].
  destruct (py_in "display_name" data) as [[|] | e]; try constructor.
  destruct (py_get data "display_name" (VStr "Unknown Location")) as [full_address | e];
    cbn; [|constructor].
  destruct (py_get data "address" (VDict [])) as [components | e]; cbn; [|constructor].
  destruct components; cbn; constructor.
Qed.

Lemma lookup_failure_result
  (env : environment) (latitude longitude : value) (w : world) (sentinel : string) :
  lookup_failure env sentinel ->
  get_address_from_coordinates env latitude longitude w =
    (Ok (VDict [("full_address", VStr sentinel)]),
     sent (reverse_request latitude longitude) w).
Proof.
  intros H. rewrite get_address_from_coordinates_cases.
  destruct H as [e He | r Hr Hs | r e Hr Hs Hj | r d Hr Hs Hj Hd].
  - rewrite He. reflexivity.
  - rewrite Hr. apply Z.eqb_neq in Hs. rewrite Hs. reflexivity.
  - rewrite Hr, Hs, Hj. reflexivity.
  - rewrite Hr, Hs, Hj. cbn. rewrite Hd. reflexivity.
Qed.

(** C4. The geocoder client never raises: it always returns a record with
    a [full_address].  A status other than 200, or a 200 reply in which
    [display_name] is not found (an object without that field), gives
    "Location not found"; an exception of the request, of the decoding of
    the reply, or of any other step of the [try] body gives "Location
    lookup failed". *)
Theorem get_address_from_coordinates_fallbacks
  (env : environment) (latitude longitude : value) (w : world) :
  (exists address full_address,
     get_address_from_coordinates env latitude longitude w =
       (Ok (VDict address), sent (reverse_request latitude longitude) w) /\
     dict_get "full_address" address = Some full_address) /\
  (forall r, nominatim env = Ok r -> status_code r <> 200 ->
     fst (get_address_from_coordinates env latitude longitude w) = Ok location_not_found) /\
  (forall r d, nominatim env = Ok r -> status_code r = 200 ->
     json r = Ok (VDict d) -> dict_get "display_name" d = None ->
     fst (get_address_from_coordinates env latitude longitude w) = Ok location_not_found) /\
  (forall r data, nominatim env = Ok r -> status_code r = 200 ->
     json r = Ok data -> py_in "display_name" data = Ok false ->
     fst (get_address_from_coordinates env latitude longitude w) = Ok location_not_found) /\
  (forall e, nominatim env = Raise e ->
     fst (get_address_from_coordinates env latitude longitude w) = Ok location_lookup_failed) /\
  (forall r e, nominatim env = Ok r -> status_code r = 200 -> json r = Raise e ->
     fst (get_address_from_coordinates env latitude longitude w) = Ok location_lookup_failed) /\
  (forall e w', get_address_from_coordinates_body env latitude longitude w = (Raise e, w') ->
     get_address_from_coordinates env latitude longitude w = (Ok location_lookup_failed, w')).
Proof.
  split; [|repeat split].
  - destruct (get_address_from_coordinates_run env latitude longitude w)
      as (address & Hshape & Hrun).
    rewrite Hrun. destruct Hshape; eexists; eexists; split; reflexivity.
  - intros r Hr Hs.
    rewrite (lookup_failure_result env latitude longitude w "Location not found");
      [reflexivity | eapply bad_status; eassumption].
  - intros r d Hr Hs Hj Hd.
    rewrite (lookup_failure_result env latitude longitude w "Location not found");
      [reflexivity | eapply no_display_name; eassumption].
  - intros r data Hr Hs Hj Hin.
    rewrite get_address_from_coordinates_cases, Hr, Hs, Hj, Hin. reflexivity.
  - intros e He.
    rewrite (lookup_failure_result env latitude longitude w "Location lookup failed");
      [reflexivity | eapply service_unreachable; eassumption].
  - intros r e Hr Hs Hj.
    rewrite (lookup_failure_result env latitude longitude w "Location lookup failed");
      [reflexivity | eapply undecodable_body; eassumption].
  - intros e w' Hbody. unfold get_address_from_coordinates, try_except.
    rewrite Hbody. reflexivity.
Qed.

(** The four fallbacks on sample replies: the service unreachable, a 404,
    a 200 whose object carries an error instead of a name, a 200 whose
    body is no JSON. *)
Example get_address_from_coordinates_fallback_samples :
  let lookup reply :=
    fst (get_address_from_coordinates
           (request_of manila reply None) (VInt 14) (VInt 121) empty_world) in
  lookup (Raise (Error "ConnectionError" "Max retries exceeded")) = Ok location_lookup_failed /\
  lookup (Ok {| status_code := 404; json := Raise (Error "JSONDecodeError" "") |})
    = Ok location_not_found /\
  lookup (Ok {| status_code := 200;
                json := Ok (VDict [("error", VStr "Unable to geocode")]) |})
    = Ok location_not_found /\
  lookup (Ok {| status_code := 200;
                json := Raise (Error "JSONDecodeError" "Expecting value") |})
    = Ok location_lookup_failed.
Proof. repeat split. Qed.

(** C9. Every record the client returns is the five-field address or a
    fallback; on a 200 reply whose object has a [display_name], and whose
    [address] is an object or is absent, the record is the name with
    [city], [province], [country] and [postcode] read from that object,
    each the empty string when the object lacks it; on a failed lookup the
    record holds the sentinel under [full_address] and nothing else, so
    that each of the four other fields reads as the empty string by
    default. *)
Theorem get_address_from_coordinates_structured
  (env : environment) (latitude longitude : value) (w : world) :
  (exists address,
     address_record address /\
     fst (get_address_from_coordinates env latitude longitude w) = Ok address) /\
  (forall r d name components,
     nominatim env = Ok r -> status_code r = 200 -> json r = Ok (VDict d) ->
     dict_get "display_name" d = Some name ->
     dict_get "address" d = Some (VDict components) \/
       (dict_get "address" d = None /\ components = []) ->
     fst (get_address_from_coordinates env latitude longitude w) =
       Ok (VDict [("full_address", name);
                  ("city", or_empty (dict_get "city" components));
                  ("province", or_empty (dict_get "province" components));
                  ("country", or_empty (dict_get "country" components));
                  ("postcode", or_empty (dict_get "postcode" components))])) /\
  (forall sentinel,
     lookup_failure env sentinel ->
     exists address,
       fst (get_address_from_coordinates env latitude longitude w) = Ok address /\
       address = VDict [("full_address", VStr sentinel)] /\
       Forall (fun k => py_get address k (VStr "") = Ok (VStr ""))
         ["city"; "province"; "country"; "postcode"]).
Proof.
  split; [|split].
  - destruct (get_address_from_coordinates_run env latitude longitude w)
      as (address & Hshape & Hrun).
    exists address. rewrite Hrun. auto.
  - intros r d name components Hr Hs Hj Hname Haddr.
    rewrite get_address_from_coordinates_cases, Hr, Hs, Hj. cbn.
    rewrite Hname. cbn.
    destruct Haddr as [Ha | [Ha ->]]; rewrite Ha; reflexivity.
  - intros sentinel Hfail.
    rewrite (lookup_failure_result env latitude longitude w sentinel Hfail).
    eexists. split; [reflexivity|]. split; [reflexivity|].
    repeat constructor.
Qed.

Example get_address_from_coordinates_manila :
  fst (get_address_from_coordinates
         (request_of manila (Ok manila_reply) None)
         (field "latitude" manila) (field "longitude" manila) empty_world)
  = Ok (VDict [("full_address", VStr "Manila, Capital District, Philippines");
               ("city", VStr "Manila");
               ("province", VStr "");
               ("country", VStr "Philippines");
               ("postcode", VStr "1000")]).
Proof. reflexivity. Qed.

(** A 200 reply whose body is [null]: the membership test raises
    [TypeError], which the [except] clause turns into the second
    fallback. *)
Example get_address_from_coordinates_null_body :
  fst (get_address_from_coordinates
         (request_of manila (Ok {| status_code := 200; json := Ok VNone |}) None)
         (VInt 14) (VInt 121) empty_world)
  = Ok location_lookup_failed.
Proof. reflexivity. Qed.

(** ** Saving a location *)

Section SaveLocation.

Variable float_of_string : string -> option spec_float.
Variables (db : Database) (env : environment) (w : world) (d : dict).

Lemma accepted_converts :
  is_within_philippines float_of_string (field "latitude" d) (field "longitude" d)
    = Ok true ->
  exists lat lon,
    py_float float_of_string (field "latitude" d) = Ok lat /\
    py_float float_of_string (field "longitude" d) = Ok lon.
Proof.
  unfold is_within_philippines, is_within_philippines_body.
  destruct (py_float float_of_string (field "latitude" d)) as [lat | []];
    cbn; try discriminate.
  destruct (py_float float_of_string (field "longitude" d)) as [lon | []];
    cbn; try discriminate.
  intros _. eauto.
Qed.

(** The handler once the body is an object, by the verdict of the
    validator. *)
Lemma save_location_rejected :
  get_json env = Ok (VDict d) ->
  is_within_philippines float_of_string (field "latitude" d) (field "longitude" d)
    = Ok false ->
  save_location float_of_string (Some db) env w = (Ok outside_response, w).
Proof.
  intros Hj Hin.
  unfold save_location, try_except, bind, lift, ret.
  rewrite Hj. cbn [py_get].
  fold (field "latitude" d) (field "longitude" d).
  rewrite Hin. reflexivity.
Qed.

Lemma save_location_validator_raises (e : exn) :
  get_json env = Ok (VDict d) ->
  is_within_philippines float_of_string (field "latitude" d) (field "longitude" d)
    = Raise e ->
  save_location float_of_string (Some db) env w = (Ok (error_response (exn_str e)), w).
Proof.
  intros Hj Hin.
  unfold save_location, try_except, bind, lift, ret.
  rewrite Hj. cbn [py_get].
  fold (field "latitude" d) (field "longitude" d).
  rewrite Hin. reflexivity.
Qed.

Lemma save_location_accepted (lat lon : spec_float) (address : value) :
  get_json env = Ok (VDict d) ->
  is_within_philippines float_of_string (field "latitude" d) (field "longitude" d)
    = Ok true ->
  py_float float_of_string (field "latitude" d) = Ok lat ->
  py_float float_of_string (field "longitude" d) = Ok lon ->
  get_address_from_coordinates env (field "latitude" d) (field "longitude" d) w =
    (Ok address, sent (reverse_request (field "latitude" d) (field "longitude" d)) w) ->
  save_location float_of_string (Some db) env w =
    match store_fault env with
    | None =>
        (Ok (saved_response (new_oid env) address),
         stored (new_oid env) (location_record lat lon address (utcnow env))
           (sent (reverse_request (field "latitude" d) (field "longitude" d)) w))
    | Some e =>
        (Ok (error_response (exn_str e)),
         sent (reverse_request (field "latitude" d) (field "longitude" d)) w)
    end.
Proof.
  intros Hj Hin Hlat Hlon Hg.
  unfold save_location, try_except, bind, lift, ret, insert_one.
  rewrite Hj. cbn [py_get].
  fold (field "latitude" d) (field "longitude" d).
  rewrite Hin. cbn [negb]. rewrite Hg, Hlat, Hlon.
  destruct (store_fault env); reflexivity.
Qed.

End SaveLocation.

(** C1. A request whose body holds coordinates the validator accepts,
    with the store reachable: the handler sends the one lookup, stores
    exactly one document [{latitude: float(latitude), longitude:
    float(longitude), address: the geocoder's record, timestamp: utcnow}]
    under the identifier of the driver, and answers 200 with
    [{status: success, message: Location saved, id: str(identifier),
    address: the same record}]. *)
Theorem save_location_saves_record
  (float_of_string : string -> option spec_float)
  (db : Database) (env : environment) (w : world) (d : dict) :
  get_json env = Ok (VDict d) ->
  is_within_philippines float_of_string (field "latitude" d) (field "longitude" d)
    = Ok true ->
  store_fault env = None ->
  exists lat lon address,
    py_float float_of_string (field "latitude" d) = Ok lat /\
    py_float float_of_string (field "longitude" d) = Ok lon /\
    get_address_from_coordinates env (field "latitude" d) (field "longitude" d) w =
      (Ok address, sent (reverse_request (field "latitude" d) (field "longitude" d)) w) /\
    save_location float_of_string (Some db) env w =
      (Ok (saved_response (new_oid env) address),
       stored (new_oid env) (location_record lat lon address (utcnow env))
         (sent (reverse_request (field "latitude" d) (field "longitude" d)) w)).
Proof.
  intros Hj Hin Hup.
  destruct (accepted_converts float_of_string d Hin) as (lat & lon & Hlat & Hlon).
  destruct (get_address_from_coordinates_run
              env (field "latitude" d) (field "longitude" d) w) as (address & _ & Hg).
  exists lat, lon, address. repeat split; try assumption.
  rewrite (save_location_accepted float_of_string db env w d lat lon address)
    by assumption.
  rewrite Hup. reflexivity.
Qed.

Lemma save_location_saves_record_manila :
  get_json (request_of manila (Ok manila_reply) None) = Ok (VDict manila) /\
  is_within_philippines no_strings (field "latitude" manila) (field "longitude" manila)
    = Ok true /\
  store_fault (request_of manila (Ok manila_reply) None) = None /\
  exists lat lon address,
    py_float no_strings (field "latitude" manila) = Ok lat /\
    py_float no_strings (field "longitude" manila) = Ok lon /\
    get_address_from_coordinates (request_of manila (Ok manila_reply) None)
      (field "latitude" manila) (field "longitude" manila) empty_world =
      (Ok address,
       sent (reverse_request (field "latitude" manila) (field "longitude" manila))
         empty_world) /\
    save_location no_strings (Some location_tracker)
      (request_of manila (Ok manila_reply) None) empty_world =
      (Ok (saved_response (new_oid (request_of manila (Ok manila_reply) None)) address),
       stored (new_oid (request_of manila (Ok manila_reply) None))
         (location_record lat lon address
            (utcnow (request_of manila (Ok manila_reply) None)))
         (sent (reverse_request (field "latitude" manila) (field "longitude" manila))
            empty_world)).
Proof.
  repeat (split; [reflexivity|]).
  apply (save_location_saves_record no_strings location_tracker
           (request_of manila (Ok manila_reply) None) empty_world manila);
    reflexivity.
Defined.

(** The same request, evaluated: one document in the collection, one
    request sent, and the 200 answer. *)
Example save_location_manila :
  save_location no_strings (Some location_tracker)
    (request_of manila (Ok manila_reply) None) empty_world
  = (Ok {| body :=
             VDict [("status", VStr "success");
                    ("message", VStr "Location saved");
                    ("id", VStr "65f1c0ffee0123456789abcd");
                    ("address",
                     VDict [("full_address", VStr "Manila, Capital District, Philippines");
                            ("city", VStr "Manila");
                            ("province", VStr "");
                            ("country", VStr "Philippines");
                            ("postcode", VStr "1000")])];
           status := 200 |},
     {| collection :=
          [{| doc_id := an_oid;
              fields :=
                [("latitude", VFloat f14_5995);
                 ("longitude", VFloat f120_9842);
                 ("address",
                  VDict [("full_address", VStr "Manila, Capital District, Philippines");
                         ("city", VStr "Manila");
                         ("province", VStr "");
                         ("country", VStr "Philippines");
                         ("postcode", VStr "1000")]);
                 ("timestamp", VDatetime 1710000000000000)] |}];
        outbound := [reverse_request (VFloat f14_5995) (VFloat f120_9842)] |}).
Proof. reflexivity. Qed.

(** C6. In-region coordinates, the store reachable, and a lookup that
    fails (the service unreachable, a status other than 200, a body that
    is no JSON, an object without a name): the record is stored all the
    same and the answer is 200, the address holding the sentinel of that
    failure under [full_address]. *)
Theorem save_location_survives_lookup_failure
  (float_of_string : string -> option spec_float)
  (db : Database) (env : environment) (w : world) (d : dict) (sentinel : string) :
  get_json env = Ok (VDict d) ->
  is_within_philippines float_of_string (field "latitude" d) (field "longitude" d)
    = Ok true ->
  store_fault env = None ->
  lookup_failure env sentinel ->
  exists lat lon,
    py_float float_of_string (field "latitude" d) = Ok lat /\
    py_float float_of_string (field "longitude" d) = Ok lon /\
    save_location float_of_string (Some db) env w =
      (Ok (saved_response (new_oid env) (VDict [("full_address", VStr sentinel)])),
       stored (new_oid env)
         (location_record lat lon (VDict [("full_address", VStr sentinel)]) (utcnow env))
         (sent (reverse_request (field "latitude" d) (field "longitude" d)) w)).
Proof.
  intros Hj Hin Hup Hfail.
  destruct (accepted_converts float_of_string d Hin) as (lat & lon & Hlat & Hlon).
  exists lat, lon. repeat split; try assumption.
  rewrite (save_location_accepted float_of_string db env w d lat lon
             (VDict [("full_address", VStr sentinel)]));
    try assumption.
  - rewrite Hup. reflexivity.
  - apply lookup_failure_result, Hfail.
Qed.

Lemma save_location_survives_lookup_failure_unreachable :
  let env := request_of manila (Raise (Error "ConnectionError" "Max retries exceeded")) None in
  get_json env = Ok (VDict manila) /\
  is_within_philippines no_strings (field "latitude" manila) (field "longitude" manila)
    = Ok true /\
  store_fault env = None /\
  lookup_failure env "Location lookup failed" /\
  exists lat lon,
    py_float no_strings (field "latitude" manila) = Ok lat /\
    py_float no_strings (field "longitude" manila) = Ok lon /\
    save_location no_strings (Some location_tracker) env empty_world =
      (Ok (saved_response (new_oid env)
             (VDict [("full_address", VStr "Location lookup failed")])),
       stored (new_oid env)
         (location_record lat lon
            (VDict [("full_address", VStr "Location lookup failed")]) (utcnow env))
         (sent (reverse_request (field "latitude" manila) (field "longitude" manila))
            empty_world)).
Proof.
  assert (Hfail : lookup_failure
                    (request_of manila
                       (Raise (Error "ConnectionError" "Max retries exceeded")) None)
                    "Location lookup failed").
  { eapply service_unreachable. reflexivity. }
  cbv zeta. repeat (split; [reflexivity|]). split; [exact Hfail|].
  apply (save_location_survives_lookup_failure no_strings location_tracker
           (request_of manila (Raise (Error "ConnectionError" "Max retries exceeded")) None)
           empty_world manila "Location lookup failed");
    (reflexivity || exact Hfail).
Defined.

(** C7. Coordinates the validator rejects: the answer is 400 with
    "Location outside Philippines", no request goes to the geocoding
    service and the collection is as it was. *)
Theorem save_location_outside_region
  (float_of_string : string -> option spec_float)
  (db : Database) (env : environment) (w : world) (d : dict) :
  get_json env = Ok (VDict d) ->
  is_within_philippines float_of_string (field "latitude" d) (field "longitude" d)
    = Ok false ->
  exists w',
    save_location float_of_string (Some db) env w = (Ok outside_response, w') /\
    outbound w' = outbound w /\
    collection w' = collection w.
Proof.
  intros Hj Hin. exists w.
  rewrite (save_location_rejected float_of_string db env w d Hj Hin). auto.
Qed.

Lemma save_location_outside_region_new_york :
  get_json (request_of new_york (Ok manila_reply) None) = Ok (VDict new_york) /\
  is_within_philippines no_strings (field "latitude" new_york) (field "longitude" new_york)
    = Ok false /\
  exists w',
    save_location no_strings (Some location_tracker)
      (request_of new_york (Ok manila_reply) None) empty_world
      = (Ok outside_response, w') /\
    outbound w' = outbound empty_world /\
    collection w' = collection empty_world.
Proof.
  repeat (split; [reflexivity|]).
  apply (save_location_outside_region no_strings location_tracker
           (request_of new_york (Ok manila_reply) None) empty_world new_york);
    reflexivity.
Defined.

(** C10 (the code departs from it). A body with the longitude left out
    and an int of 401 digits for the latitude: the [OverflowError] of
    [float] leaves the validator and the handler answers 500 with its
    text, not 400. *)
Theorem save_location_missing_longitude_overflow
  (float_of_string : string -> option spec_float) (db : Database)
  (reply : result http_response) (down : option exn) (w : world) :
  save_location float_of_string (Some db)
    (request_of [("latitude", VInt (10 ^ 400))] reply down) w
  = (Ok (error_response "int too large to convert to float"), w).
Proof.
  apply (save_location_validator_raises float_of_string db
           (request_of [("latitude", VInt (10 ^ 400))] reply down) w
           [("latitude", VInt (10 ^ 400))]
           (OverflowError "int too large to convert to float")).
  - reflexivity.
  - vm_compute. reflexivity.
Qed.

(** A body without latitude, or with [null] for it, is answered like an
    out-of-region coordinate whatever else it holds; so is a body without
    longitude whose latitude converts. *)
Theorem save_location_missing_coordinate
  (float_of_string : string -> option spec_float)
  (db : Database) (env : environment) (w : world) (d : dict) :
  get_json env = Ok (VDict d) ->
  field "latitude" d = VNone \/
    (field "longitude" d = VNone /\
     exists lat, py_float float_of_string (field "latitude" d) = Ok lat) ->
  save_location float_of_string (Some db) env w = (Ok outside_response, w).
Proof.
  intros Hj Hmiss. apply (save_location_rejected float_of_string db env w d Hj).
  unfold is_within_philippines, is_within_philippines_body.
  destruct Hmiss as [-> | [-> [lat ->]]]; reflexivity.
Qed.

Lemma save_location_missing_coordinate_empty_body :
  get_json (request_of [] (Ok manila_reply) None) = Ok (VDict []) /\
  (field "latitude" [] = VNone \/
    (field "longitude" [] = VNone /\
     exists lat, py_float no_strings (field "latitude" []) = Ok lat)) /\
  save_location no_strings (Some location_tracker)
    (request_of [] (Ok manila_reply) None) empty_world
  = (Ok outside_response, empty_world).
Proof.
  split; [reflexivity|]. split; [left; reflexivity|].
  apply (save_location_missing_coordinate no_strings location_tracker
           (request_of [] (Ok manila_reply) None) empty_world []);
    [reflexivity | left; reflexivity].
Defined.

(** ** The store connection *)

(** The module serves only with [database] bound: a missing or empty URI
    and a failed connection both end the process with exit code 1. *)
Theorem startup_binds_database (MONGO_URI : option string) (connect : result unit) :
  match MONGO_URI, connect with
  | Some (String _ _), Ok _ => startup MONGO_URI connect = Serving (Some location_tracker)
  | _, _ => startup MONGO_URI connect = Exited 1
  end.
Proof. destruct MONGO_URI as [[|c s]|], connect; reflexivity. Qed.

Lemma serving_database_bound
  (MONGO_URI : option string) (connect : result unit) (database : option Database) :
  startup MONGO_URI connect = Serving database -> database <> None.
Proof.
  unfold startup. destruct (get_mongodb_connection MONGO_URI connect); congruence.
Qed.

(** The guard of the handler, were [database] ever [None]. *)
Lemma save_location_database_none
  (float_of_string : string -> option spec_float) (env : environment) (w : world) :
  save_location float_of_string None env w
  = (Ok (error_response "Database connection lost"), w).
Proof. reflexivity. Qed.

(** C5 (the code departs from it). After a successful start-up the store
    becomes unreachable, the driver raising [e] on every operation.  The
    handle is still bound, so the guard does not fire: the Manila request
    is looked up and then answered 500 with the text of [e], and the New
    York request is answered 400. *)
Theorem save_location_store_unreachable
  (float_of_string : string -> option spec_float) (e : exn) (w : world) :
  startup (Some "mongodb+srv://cluster0.example.mongodb.net") (Ok tt)
    = Serving (Some location_tracker) /\
  save_location float_of_string (Some location_tracker)
    (request_of manila (Ok manila_reply) (Some e)) w
    = (Ok (error_response (exn_str e)),
       sent (reverse_request (field "latitude" manila) (field "longitude" manila)) w) /\
  save_location float_of_string (Some location_tracker)
    (request_of new_york (Ok manila_reply) (Some e)) w
    = (Ok outside_response, w).
Proof. repeat split. Qed.

(** A store that fails aborts the save: in-region coordinates with the
    store unreachable are answered 500 with the text of the driver's
    exception, and the collection is as it was. *)
Theorem save_location_store_failure
  (float_of_string : string -> option spec_float)
  (db : Database) (env : environment) (w : world) (d : dict) (e : exn) :
  get_json env = Ok (VDict d) ->
  is_within_philippines float_of_string (field "latitude" d) (field "longitude" d)
    = Ok true ->
  store_fault env = Some e ->
  exists w',
    save_location float_of_string (Some db) env w = (Ok (error_response (exn_str e)), w') /\
    collection w' = collection w.
Proof.
  intros Hj Hin Hdown.
  destruct (accepted_converts float_of_string d Hin) as (lat & lon & Hlat & Hlon).
  destruct (get_address_from_coordinates_run
              env (field "latitude" d) (field "longitude" d) w) as (address & _ & Hg).
  rewrite (save_location_accepted float_of_string db env w d lat lon address)
    by assumption.
  rewrite Hdown. eexists. split; reflexivity.
Qed.

Lemma save_location_store_failure_manila :
  let e := Error "ServerSelectionTimeoutError" "connection refused" in
  get_json (request_of manila (Ok manila_reply) (Some e)) = Ok (VDict manila) /\
  is_within_philippines no_strings (field "latitude" manila) (field "longitude" manila)
    = Ok true /\
  store_fault (request_of manila (Ok manila_reply) (Some e)) = Some e /\
  exists w',
    save_location no_strings (Some location_tracker)
      (request_of manila (Ok manila_reply) (Some e)) empty_world
      = (Ok (error_response (exn_str e)), w') /\
    collection w' = collection empty_world.
Proof.
  cbv zeta. repeat (split; [reflexivity|]).
  apply (save_location_store_failure no_strings location_tracker
           (request_of manila (Ok manila_reply)
              (Some (Error "ServerSelectionTimeoutError" "connection refused")))
           empty_world manila
           (Error "ServerSelectionTimeoutError" "connection refused"));
    reflexivity.
Defined.

(** Whatever the request and the state of the services, the handler
    returns a response: that of its [try] body when the body returns, and
    the 500 with the text of the exception when the body raises.  The
    body raises when [get_json] does, when the body of the request is no
    object, when the validator raises and when the driver refuses the
    insert. *)
Theorem save_location_never_raises
  (float_of_string : string -> option spec_float)
  (database : option Database) (env : environment) (w : world) :
  (exists r w', save_location float_of_string database env w = (Ok r, w')) /\
  match save_location_body float_of_string database env w with
  | (Ok r, w') => save_location float_of_string database env w = (Ok r, w')
  | (Raise e, w') =>
      save_location float_of_string database env w = (Ok (error_response (exn_str e)), w')
  end /\
  (forall e,
     database <> None -> get_json env = Raise e ->
     save_location_body float_of_string database env w = (Raise e, w)) /\
  (forall v,
     database <> None -> get_json env = Ok v -> (forall d, v <> VDict d) ->
     save_location_body float_of_string database env w =
       (Raise (AttributeError ("'" ++ type_name v ++ "' object has no attribute 'get'")), w)) /\
  (forall d e,
     database <> None -> get_json env = Ok (VDict d) ->
     is_within_philippines float_of_string (field "latitude" d) (field "longitude" d)
       = Raise e ->
     save_location_body float_of_string database env w = (Raise e, w)) /\
  (forall d e,
     database <> None -> get_json env = Ok (VDict d) ->
     is_within_philippines float_of_string (field "latitude" d) (field "longitude" d)
       = Ok true ->
     store_fault env = Some e ->
     save_location_body float_of_string database env w =
       (Raise e, sent (reverse_request (field "latitude" d) (field "longitude" d)) w)).
Proof.
  assert (Htry : save_location float_of_string database env w =
                 match save_location_body float_of_string database env w with
                 | (Ok r, w') => (Ok r, w')
                 | (Raise e, w') => (Ok (error_response (exn_str e)), w')
                 end) by reflexivity.
  split; [|split; [|repeat split]].
  - rewrite Htry.
    destruct (save_location_body float_of_string database env w) as [[r | e] w']; eauto.
  - rewrite Htry.
    destruct (save_location_body float_of_string database env w) as [[r | e] w'];
      reflexivity.
  - intros e Hdb Hj. destruct database as [db|]; [|congruence].
    unfold save_location_body, bind, lift. rewrite Hj. reflexivity.
  - intros v Hdb Hj Hv. destruct database as [db|]; [|congruence].
    unfold save_location_body, bind, lift. rewrite Hj.
    destruct v as [| b | n | f | s | l | d | t]; try reflexivity.
    destruct (Hv d). reflexivity.
  - intros d e Hdb Hj Hin. destruct database as [db|]; [|congruence].
    unfold save_location_body, bind, lift. rewrite Hj. cbn [py_get].
    fold (field "latitude" d) (field "longitude" d). rewrite Hin. reflexivity.
  - intros d e Hdb Hj Hin Hf. destruct database as [db|]; [|congruence].
    destruct (accepted_converts float_of_string d Hin) as (lat & lon & Hlat & Hlon).
    destruct (get_address_from_coordinates_run
                env (field "latitude" d) (field "longitude" d) w) as (address & _ & Hg).
    unfold save_location_body, bind, lift, ret, insert_one. rewrite Hj. cbn [py_get].
    fold (field "latitude" d) (field "longitude" d).
    rewrite Hin. cbn [negb]. rewrite Hg, Hlat, Hlon, Hf. reflexivity.
Qed.

(** The four exceptions on sample requests: an unreadable body, a list
    for a body, an int of 401 digits for the latitude, the store out of
    reach. *)
Example save_location_exception_samples :
  let answer env := fst (save_location no_strings (Some location_tracker) env empty_world) in
  let env body := {| get_json := body; nominatim := Ok manila_reply;
                     utcnow := 1710000000000000; new_oid := an_oid;
                     store_fault := None |} in
  answer (env (Raise (Error "BadRequest" "400 Bad Request: not JSON")))
    = Ok (error_response "400 Bad Request: not JSON") /\
  answer (env (Ok (VList []))) = Ok (error_response "'list' object has no attribute 'get'") /\
  answer (env (Ok (VDict [("latitude", VInt (10 ^ 400)); ("longitude", VInt 121)])))
    = Ok (error_response "int too large to convert to float") /\
  answer (request_of manila (Ok manila_reply)
            (Some (Error "ServerSelectionTimeoutError" "connection refused")))
    = Ok (error_response "connection refused").
Proof. cbv zeta. repeat split; vm_compute; reflexivity. Qed.

(** ** Listing the locations *)

Lemma key_leb_trans (a b c : option Z) :
  key_leb a b = true -> key_leb b c = true -> key_leb a c = true.
Proof.
  destruct a as [x|], b as [y|], c as [z|]; cbn; try congruence.
  rewrite !Z.leb_le. lia.
Qed.

Lemma timestamp_descending_transitive :
  Transitive (fun a b : document => is_true (TimestampDescending.leb a b)).
Proof.
  intros a b c Hab Hbc. unfold is_true, TimestampDescending.leb in *.
  eapply key_leb_trans; eassumption.
Qed.

Section SortedLists.

Context {A : Type} (R : A -> A -> Prop).

Lemma StronglySorted_firstn (n : nat) (l : list A) :
  StronglySorted R l -> StronglySorted R (firstn n l).
Proof.
  intros H. revert n. induction H as [| a l Hl IH Ha]; intros [|n]; cbn; try constructor.
  - apply IH.
  - apply Forall_forall. intros b Hb. rewrite Forall_forall in Ha.
    apply Ha. rewrite <- (firstn_skipn n l). apply in_or_app. now left.
Qed.

Lemma StronglySorted_app_inv (l1 l2 : list A) :
  StronglySorted R (l1 ++ l2) ->
  forall a b, In a l1 -> In b l2 -> R a b.
Proof.
  induction l1 as [| x l1 IH]; cbn; intros H a b Ha Hb; [contradiction|].
  apply StronglySorted_inv in H as [Hs Hx].
  destruct Ha as [<- | Ha].
  - rewrite Forall_forall in Hx. apply Hx, in_or_app. now right.
  - now apply IH.
Qed.

Context {B : Type} (f : A -> B) (S : B -> B -> Prop).

Lemma StronglySorted_map (l : list A) :
  (forall a b, R a b -> S (f a) (f b)) ->
  StronglySorted R l -> StronglySorted S (map f l).
Proof.
  intros HR H. induction H as [| a l Hl IH Ha]; cbn; constructor; [exact IH|].
  apply Forall_forall. intros b Hb. apply in_map_iff in Hb as (x & <- & Hx).
  rewrite Forall_forall in Ha. auto.
Qed.

End SortedLists.

Lemma timestamp_stringify_id (location : document) :
  timestamp (stringify_id location) = timestamp (fields location).
Proof. reflexivity. Qed.

(** C8. On every collection [GET /locations] answers with at most 50
    records, which are documents of the collection, 50 of them or all of
    it when it holds fewer, each with its identifier as a string under
    [_id] in front of its fields; they come most recent first, and no
    document left out is more recent than one returned.  It answers with
    the 500 of the framework when the store cannot be read. *)
Theorem get_locations_recent (env : environment) (w : world) :
  match store_fault env with
  | None =>
      exists shown rest : list document,
        dispatch (get_locations env) w =
          ({| body :=
                VList (map (fun doc =>
                              VDict (("_id", VStr (oid_str (doc_id doc))) :: fields doc))
                         shown);
              status := 200 |},
           w) /\
        Permutation (collection w) (shown ++ rest) /\
        List.length shown = Nat.min 50 (List.length (collection w)) /\
        (List.length shown <= 50)%nat /\
        StronglySorted (fun a b => dated_no_older (fields a) (fields b)) shown /\
        (forall a b, In a shown -> In b rest -> dated_no_older (fields a) (fields b))
  | Some _ => dispatch (get_locations env) w = (server_error, w)
  end.
Proof.
  unfold dispatch, get_locations, bind, find_recent, ret, jsonify.
  destruct (store_fault env) as [e|]; [reflexivity|].
  pose proof (TimestampSort.StronglySorted_sort (collection w)
                timestamp_descending_transitive) as Hsorted.
  pose proof (TimestampSort.Permuted_sort (collection w)) as Hperm.
  assert (Hdated : forall a b : document,
             is_true (TimestampDescending.leb a b) ->
             dated_no_older (fields a) (fields b)).
  { intros a b Hab ta tb Ha Hb. unfold is_true, TimestampDescending.leb in Hab.
    rewrite Ha, Hb in Hab. apply Z.leb_le. exact Hab. }
  exists (firstn 50 (TimestampSort.sort (collection w))),
         (skipn 50 (TimestampSort.sort (collection w))).
  split; [|split; [|split; [|split; [|split]]]].
  - rewrite map_map. reflexivity.
  - rewrite firstn_skipn. exact Hperm.
  - rewrite length_firstn. f_equal. symmetry. apply Permutation_length, Hperm.
  - apply firstn_le_length.
  - rewrite <- (map_id (firstn 50 (TimestampSort.sort (collection w)))).
    apply StronglySorted_map with
      (R := fun a b : document => is_true (TimestampDescending.leb a b)).
    + exact Hdated.
    + apply StronglySorted_firstn, Hsorted.
  - intros a b Ha Hb. apply Hdated.
    apply (StronglySorted_app_inv
             (fun a b : document => is_true (TimestampDescending.leb a b))
             (firstn 50 (TimestampSort.sort (collection w)))
             (skipn 50 (TimestampSort.sort (collection w))));
      [rewrite firstn_skipn; exact Hsorted | exact Ha | exact Hb].
Qed.

(** On the collection of 52 the list holds the 50 latest, the latest
    first; the two earliest are left out. *)
Example get_locations_sample :
  fst (dispatch (get_locations (request_of [] (Ok manila_reply) None)) sample_world)
  = {| body :=
         VList (map (fun n =>
                       VDict (("_id", VStr (oid_str (sample_oid n)))
                                :: fields (sample_document n)))
                  (rev (seq 2 50)));
       status := 200 |}.
Proof. vm_compute. reflexivity. Qed.



(** On that collection: 50 documents shown, the two earliest left out. *)
Example get_locations_most_recent_sample_split :
  exists shown,
    get_locations (request_of [] (Ok manila_reply) None) sample_world =
      (Ok {| body := VList (map VDict (map stringify_id shown)); status := 200 |},
       sample_world) /\
    shown = map sample_document (rev (seq 2 50)) /\
    Permutation (collection sample_world)
      (shown ++ [sample_document 1; sample_document 0]).
Proof.
  exists (map sample_document (rev (seq 2 50))).
  split; [vm_compute; reflexivity|]. split; [reflexivity|].
  apply Permutation_trans with (TimestampSort.sort (collection sample_world)).
  - apply TimestampSort.Permuted_sort.
  - vm_compute. apply Permutation_refl.
Qed.

(** Two saves, then the list: the later one comes first, identifiers as
    strings. *)
Example get_locations_two_saves :
  let earlier := {| doc_id := {| oid_str := "65f1c0ffee0123456789abcd" |};
                    fields := [("latitude", VFloat f14_5995);
                               ("timestamp", VDatetime 1710000000000000)] |} in
  let later := {| doc_id := {| oid_str := "65f1c0ffee0123456789abce" |};
                  fields := [("latitude", VFloat f14_5995);
                             ("timestamp", VDatetime 1710000060000000)] |} in
  fst (dispatch (get_locations (request_of [] (Ok manila_reply) None))
         {| collection := [earlier; later]; outbound := [] |})
  = {| body := VList [VDict (("_id", VStr "65f1c0ffee0123456789abce") :: fields later);
                      VDict (("_id", VStr "65f1c0ffee0123456789abcd") :: fields earlier)];
       status := 200 |}.
Proof. reflexivity. Qed.

(** ** The outcomes of a save *)

Lemma accepted_inside_box
  (float_of_string : string -> option spec_float) (lat lon : value) (x y : spec_float) :
  py_float float_of_string lat = Ok x ->
  py_float float_of_string lon = Ok y ->
  is_within_philippines float_of_string lat lon = Ok (inside_box x y).
Proof.
  intros Hx Hy. unfold is_within_philippines, is_within_philippines_body.
  rewrite Hx, Hy. reflexivity.
Qed.

Lemma save_location_not_object
  (float_of_string : string -> option spec_float)
  (db : Database) (env : environment) (w : world) (v : value) :
  get_json env = Ok v ->
  (forall d, v <> VDict d) ->
  save_location float_of_string (Some db) env w =
    (Ok (error_response ("'" ++ type_name v ++ "' object has no attribute 'get'")), w).
Proof.
  intros Hj Hv. unfold save_location, try_except, bind, lift, ret. rewrite Hj.
  destruct v; try reflexivity. destruct (Hv d). reflexivity.
Qed.

Lemma save_location_no_body
  (float_of_string : string -> option spec_float)
  (db : Database) (env : environment) (w : world) (e : exn) :
  get_json env = Raise e ->
  save_location float_of_string (Some db) env w = (Ok (error_response (exn_str e)), w).
Proof.
  intros Hj. unfold save_location, try_except, bind, lift, ret. rewrite Hj. reflexivity.
Qed.

(** Every run of the handler is one of the seven outcomes. *)
Lemma save_location_outcome
  (float_of_string : string -> option spec_float)
  (database : option Database) (env : environment) (w : world) :
  exists r w',
    save_location float_of_string database env w = (Ok r, w') /\
    save_outcome float_of_string database env w r w'.
Proof.
  destruct database as [db|].
  2: { eexists; eexists; split; [reflexivity | now apply outcome_no_database]. }
  assert (Hdb : Some db <> None) by discriminate.
  destruct (get_json env) as [v | e] eqn:Hj.
  2: { eexists; eexists; split;
       [apply save_location_no_body, Hj | now apply outcome_no_body]. }
  assert (Hv : (exists d, v = VDict d) \/ (forall d, v <> VDict d)).
  { destruct v; try (right; discriminate). left. eauto. }
  destruct Hv as [[d ->] | Hv].
  2: { eexists; eexists; split;
       [apply save_location_not_object; eassumption | now apply outcome_not_object]. }
  destruct (is_within_philippines float_of_string (field "latitude" d) (field "longitude" d))
    as [[|] | e] eqn:Hin.
  - destruct (accepted_converts float_of_string d Hin) as (lat & lon & Hlat & Hlon).
    destruct (get_address_from_coordinates_run
                env (field "latitude" d) (field "longitude" d) w)
      as (address & Hshape & Hg).
    rewrite (save_location_accepted float_of_string db env w d lat lon address)
      by assumption.
    destruct (store_fault env) as [e|] eqn:Hf.
    + eexists; eexists; split; [reflexivity|].
      eapply outcome_store_failed; eassumption.
    + eexists; eexists; split; [reflexivity|].
      eapply outcome_saved; try eassumption.
      * rewrite (accepted_inside_box float_of_string _ _ lat lon Hlat Hlon) in Hin.
        congruence.
      * rewrite Hg. reflexivity.
  - eexists; eexists; split;
      [apply (save_location_rejected float_of_string db env w d Hj Hin)
      | eapply outcome_outside; eassumption].
  - eexists; eexists; split;
      [apply (save_location_validator_raises float_of_string db env w d e Hj Hin)
      | eapply outcome_validator_raised; eassumption].
Qed.

(** The response, the collection and the lookups of one save: the status
    is 200, 400 or 500; the collection gains one document, as the handler
    builds it, exactly when the status is 200 and is untouched otherwise;
    a lookup goes out exactly when the validator accepted the
    coordinates. *)
Theorem save_location_effects
  (float_of_string : string -> option spec_float)
  (database : option Database) (env : environment) (w : world) :
  exists r w',
    save_location float_of_string database env w = (Ok r, w') /\
    (status r = 200 \/ status r = 400 \/ status r = 500) /\
    (status r = 200 ->
     exists doc address,
       collection w' = (collection w ++ [doc])%list /\
       location_document doc /\
       doc_id doc = new_oid env /\
       dict_get "address" (fields doc) = Some address /\
       timestamp (fields doc) = Some (utcnow env) /\
       r = saved_response (new_oid env) address) /\
    (status r <> 200 -> collection w' = collection w) /\
    outbound w' =
      (outbound w ++ lookups float_of_string database (POST_save_location env))%list.
Proof.
  destruct (save_location_outcome float_of_string database env w) as (r & w' & Hrun & Hout).
  exists r, w'. split; [exact Hrun|].
  unfold lookups.
  destruct Hout as [Hdb | e Hdb Hj | v Hdb Hj Hv | d e Hdb Hj Hin | d Hdb Hj Hin
                   | d e Hdb Hj Hin Hf | d lat lon address Hdb Hj Hlat Hlon Hbox Hshape Hg Hf];
    try (destruct database as [db|]; [|congruence]).
  - subst database. cbn. rewrite app_nil_r. repeat split; auto; discriminate.
  - rewrite Hj. cbn. rewrite app_nil_r. repeat split; auto; discriminate.
  - rewrite Hj. cbn.
    assert (Hl : match v with VDict d =>
                   match is_within_philippines float_of_string
                           (field "latitude" d) (field "longitude" d) with
                   | Ok true => [reverse_request (field "latitude" d) (field "longitude" d)]
                   | _ => []
                   end
                 | _ => [] end = []) by (destruct v; try reflexivity; destruct (Hv d); reflexivity).
    rewrite Hl, app_nil_r. repeat split; auto; discriminate.
  - rewrite Hj, Hin. cbn. rewrite app_nil_r. repeat split; auto; discriminate.
  - rewrite Hj, Hin. cbn. rewrite app_nil_r. repeat split; auto; discriminate.
  - rewrite Hj, Hin. cbn. repeat split; auto; discriminate.
  - rewrite Hj, (accepted_inside_box float_of_string _ _ lat lon Hlat Hlon), Hbox. cbn.
    split; [auto|]. split; [|split; [congruence | reflexivity]].
    intros _. exists {| doc_id := new_oid env;
                        fields := location_record lat lon address (utcnow env) |}, address.
    split; [reflexivity|]. split; [constructor; assumption|]. repeat split.
Qed.

(** ** Sequences of calls *)

Lemma dispatch_get_locations_world (env : environment) (w : world) :
  snd (dispatch (get_locations env) w) = w.
Proof.
  unfold dispatch, get_locations, bind, find_recent, ret.
  destruct (store_fault env); reflexivity.
Qed.

(** One call: what it adds to the collection and to the lookups sent. *)
Lemma handle_effect
  (float_of_string : string -> option spec_float)
  (database : option Database) (call : http_call) (w : world) :
  exists added,
    collection (snd (handle float_of_string database call w))
      = (collection w ++ added)%list /\
    Forall location_document added /\
    List.length added =
      (if saved (call, fst (handle float_of_string database call w)) then 1 else 0)%nat /\
    outbound (snd (handle float_of_string database call w))
      = (outbound w ++ lookups float_of_string database call)%list.
Proof.
  destruct call as [env | env]; cbn [handle saved].
  - destruct (save_location_outcome float_of_string database env w)
      as (r & w' & Hrun & Hout).
    unfold dispatch. rewrite Hrun. cbn [fst snd]. unfold lookups.
    destruct Hout as [Hdb | e Hdb Hj | v Hdb Hj Hv | d e Hdb Hj Hin | d Hdb Hj Hin
                     | d e Hdb Hj Hin Hf
                     | d lat lon address Hdb Hj Hlat Hlon Hbox Hshape Hg Hf];
      try (destruct database as [db|]; [|congruence]);
      try subst database; try rewrite Hj; try rewrite Hin.
    1, 2, 4, 5, 6: exists []; cbn; rewrite !app_nil_r; repeat split; constructor.
    + exists []. cbn. rewrite app_nil_r. repeat split; try constructor.
      destruct v; try (rewrite app_nil_r; reflexivity). destruct (Hv d). reflexivity.
    + rewrite (accepted_inside_box float_of_string _ _ lat lon Hlat Hlon), Hbox.
      eexists. cbn. split; [reflexivity|]. repeat split.
      constructor; [|constructor]. constructor; assumption.
  - rewrite dispatch_get_locations_world. exists [].
    assert (Hl : lookups float_of_string database (GET_locations env) = [])
      by (destruct database; reflexivity).
    rewrite Hl, !app_nil_r. repeat split. constructor.
Qed.

(** Over any sequence of calls the collection only grows, by one document
    of the handler's making for each save answered 200 and by nothing
    else, and the lookups sent are those of the saves the validator
    accepted, in order. *)
Theorem serve_effects
  (float_of_string : string -> option spec_float)
  (database : option Database) (calls : list http_call) (w : world) :
  map fst (fst (serve float_of_string database calls w)) = calls /\
  (exists added,
     collection (snd (serve float_of_string database calls w))
       = (collection w ++ added)%list /\
     Forall location_document added /\
     List.length added
       = List.length (filter saved (fst (serve float_of_string database calls w)))) /\
  outbound (snd (serve float_of_string database calls w))
    = (outbound w ++ flat_map (lookups float_of_string database) calls)%list.
Proof.
  revert w. induction calls as [| call calls IH]; intros w; cbn [serve].
  - cbn. rewrite !app_nil_r. split; [reflexivity|]. split; [|reflexivity].
    exists []. rewrite app_nil_r. repeat split. constructor.
  - destruct (handle_effect float_of_string database call w)
      as (added1 & Hc1 & Hd1 & Hn1 & Ho1).
    destruct (handle float_of_string database call w) as [r w1]. cbn [fst snd] in *.
    destruct (IH w1) as (Hlog & (added2 & Hc2 & Hd2 & Hn2) & Ho2).
    destruct (serve float_of_string database calls w1) as [log w2]. cbn [fst snd] in *.
    split; [cbn; congruence|]. split.
    + exists (added1 ++ added2)%list. split; [|split].
      * rewrite Hc2, Hc1, app_assoc. reflexivity.
      * apply Forall_app. auto.
      * rewrite length_app, Hn1, Hn2. cbn [filter].
        destruct (saved (call, r)); reflexivity.
    + rewrite Ho2, Ho1. cbn [flat_map]. rewrite app_assoc. reflexivity.
Qed.

(** On a collection of the handler's documents, the list is the framework's
    500 or at most 50 records of the handler's making, the identifier as a
    string in front. *)
Lemma get_locations_location_documents (env : environment) (w : world) :
  Forall location_document (collection w) ->
  fst (dispatch (get_locations env) w) = server_error \/
  exists docs,
    Forall location_document docs /\ (List.length docs <= 50)%nat /\
    fst (dispatch (get_locations env) w) =
      {| body := VList (map VDict (map stringify_id docs)); status := 200 |}.
Proof.
  intros Hw. unfold dispatch, get_locations, bind, find_recent, ret, jsonify.
  destruct (store_fault env); [left; reflexivity | right].
  exists (firstn 50 (TimestampSort.sort (collection w))).
  split; [|split; [apply firstn_le_length | reflexivity]].
  apply Forall_forall. intros doc Hdoc.
  rewrite Forall_forall in Hw. apply Hw.
  apply (Permutation_in doc (Permutation_sym (TimestampSort.Permuted_sort (collection w)))).
  rewrite <- (firstn_skipn 50 (TimestampSort.sort (collection w))).
  apply in_or_app. now left.
Qed.

(** Whatever calls came before, a list answered by the application holds
    nothing but records of the shape [save_location] writes, with
    coordinates inside the box: [{_id: str, latitude: float, longitude:
    float, address: a record of the geocoder client, timestamp}]. *)
Theorem serve_lists_location_records
  (float_of_string : string -> option spec_float)
  (database : option Database) (calls : list http_call) (w : world)
  (env : environment) (r : response) :
  Forall location_document (collection w) ->
  In (GET_locations env, r) (fst (serve float_of_string database calls w)) ->
  r = server_error \/
  exists records,
    r = {| body := VList (map VDict records); status := 200 |} /\
    (List.length records <= 50)%nat /\
    Forall (fun record =>
              exists id lat lon address now,
                record = ("_id", VStr (oid_str id)) :: location_record lat lon address now /\
                inside_box lat lon = true /\
                address_record address)
      records.
Proof.
  revert w. induction calls as [| call calls IH]; intros w Hw Hin; cbn [serve] in Hin.
  - destruct Hin.
  - destruct (handle_effect float_of_string database call w) as (added & Hc & Hd & _).
    pose proof (get_locations_location_documents env w Hw) as Hlist.
    destruct (handle float_of_string database call w) as [r1 w1] eqn:Hh.
    cbn [fst snd] in *.
    destruct (serve float_of_string database calls w1) as [log w2] eqn:Hs.
    cbn [fst] in Hin. destruct Hin as [Hhead | Htail].
    + injection Hhead as -> ->. cbn [handle] in Hh. rewrite Hh in Hlist. cbn [fst] in Hlist.
      destruct Hlist as [-> | (docs & Hdocs & Hlen & ->)]; [now left | right].
      exists (map stringify_id docs). split; [reflexivity|].
      split; [rewrite length_map; exact Hlen|].
      apply Forall_forall. intros record Hrec.
      apply in_map_iff in Hrec as (doc & <- & Hdoc).
      rewrite Forall_forall in Hdocs.
      destruct (Hdocs doc Hdoc) as [id lat lon address now Hbox Hshape].
      exists id, lat, lon, address, now. auto.
    + apply (IH w1).
      * rewrite Hc. apply Forall_app. auto.
      * rewrite Hs. exact Htail.
Qed.

(** ** A save, then the list *)

Lemma key_leb_refl (k : option Z) : key_leb k k = true.
Proof. destruct k; cbn; [apply Z.leb_refl | reflexivity]. Qed.

(** A document more recent than all the others is sorted in front. *)
Lemma sort_newest_first (l : list document) (d : document) :
  Forall (fun x => key_leb (timestamp (fields d)) (timestamp (fields x)) = false) l ->
  exists tl, TimestampSort.sort (l ++ [d]) = d :: tl.
Proof.
  intros Hnew.
  pose proof (TimestampSort.Permuted_sort (l ++ [d])) as Hperm.
  pose proof (TimestampSort.StronglySorted_sort (l ++ [d])
                timestamp_descending_transitive) as Hsorted.
  destruct (TimestampSort.sort (l ++ [d])) as [| h tl].
  - apply Permutation_sym, Permutation_nil in Hperm.
    destruct l; discriminate.
  - assert (Hh : In h (l ++ [d]))
      by (apply (Permutation_in h (Permutation_sym Hperm)); now left).
    assert (Hd : In d (h :: tl))
      by (apply (Permutation_in d Hperm), in_or_app; right; now left).
    apply in_app_or in Hh as [Hh | [<- | []]]; [exfalso | now exists tl].
    rewrite Forall_forall in Hnew. specialize (Hnew h Hh).
    destruct Hd as [<- | Hd].
    + rewrite key_leb_refl in Hnew. discriminate.
    + apply StronglySorted_inv in Hsorted as [_ Hall].
      rewrite Forall_forall in Hall. specialize (Hall d Hd).
      unfold is_true, TimestampDescending.leb in Hall. congruence.
Qed.

(** A save answered 200 when every document of the collection carries a
    date of an earlier millisecond, then a list from a reachable store:
    the record saved comes first, under the identifier the save returned,
    its coordinates and address as stored and its date within the
    millisecond of the request.  (The store keeps of a date its whole
    milliseconds, so that two saves within one millisecond are not told
    apart by the sort.) *)
Theorem saved_location_listed_first
  (float_of_string : string -> option spec_float)
  (db : Database) (env env' : environment) (w w' : world) (d : dict) (r : response) :
  get_json env = Ok (VDict d) ->
  save_location float_of_string (Some db) env w = (Ok r, w') ->
  status r = 200 ->
  Forall (fun doc =>
            exists t, timestamp (fields doc) = Some t /\
                      millisecond t < millisecond (utcnow env))
    (collection w) ->
  store_fault env' = None ->
  exists lat lon address now rest,
    r = saved_response (new_oid env) address /\
    dispatch (get_locations env') w' =
      ({| body :=
            VList (VDict (("_id", VStr (oid_str (new_oid env)))
                            :: location_record lat lon address now)
                     :: rest);
          status := 200 |},
       w') /\
    py_float float_of_string (field "latitude" d) = Ok lat /\
    py_float float_of_string (field "longitude" d) = Ok lon /\
    millisecond now = millisecond (utcnow env).
Proof.
  intros Hbody Hrun Hstatus Hold Hup.
  destruct (save_location_outcome float_of_string (Some db) env w)
    as (r0 & w0 & Hrun0 & Hout).
  rewrite Hrun in Hrun0. injection Hrun0 as <- <-.
  destruct Hout as [Hdb | e Hdb Hj | v Hdb Hj Hv | d0 e Hdb Hj Hin | d0 Hdb Hj Hin
                   | d0 e Hdb Hj Hin Hf
                   | d0 lat lon address Hdb Hj Hlat Hlon Hbox Hshape Hg Hf];
    try discriminate Hstatus.
  rewrite Hbody in Hj. injection Hj as <-.
  assert (Hnew : Forall (fun doc =>
                           key_leb (Some (utcnow env)) (timestamp (fields doc)) = false)
                   (collection w)).
  { apply Forall_forall. intros doc Hdoc. rewrite Forall_forall in Hold.
    destruct (Hold doc Hdoc) as (t & -> & Ht). cbn [key_leb].
    apply Z.leb_gt. unfold millisecond in Ht.
    destruct (Z.lt_ge_cases t (utcnow env)) as [Hlt | Hge]; [exact Hlt|].
    apply (Z.div_le_mono _ _ 1000) in Hge; lia. }
  destruct (sort_newest_first (collection w)
              {| doc_id := new_oid env;
                 fields := location_record lat lon address (utcnow env) |} Hnew)
    as (tl & Hsort).
  exists lat, lon, address, (utcnow env), (map VDict (map stringify_id (firstn 49 tl))).
  split; [reflexivity|]. split; [|auto].
  unfold dispatch, get_locations, bind, find_recent, ret, jsonify.
  rewrite Hup. cbn [stored sent collection]. rewrite Hsort. reflexivity.
Qed.

(** ** More on the geocoder client *)

(** The client returns the five-field record only from a 200 reply whose
    object has a [display_name] and whose [address] is an object or is
    absent, and then the fields are those of the reply. *)
Theorem get_address_from_coordinates_found_only_if
  (env : environment) (latitude longitude : value) (w : world)
  (full_address city province country postcode : value) :
  fst (get_address_from_coordinates env latitude longitude w) =
    Ok (VDict [("full_address", full_address); ("city", city); ("province", province);
               ("country", country); ("postcode", postcode)]) ->
  exists r d components,
    nominatim env = Ok r /\ status_code r = 200 /\ json r = Ok (VDict d) /\
    dict_get "display_name" d = Some full_address /\
    (dict_get "address" d = Some (VDict components) \/
     (dict_get "address" d = None /\ components = [])) /\
    city = or_empty (dict_get "city" components) /\
    province = or_empty (dict_get "province" components) /\
    country = or_empty (dict_get "country" components) /\
    postcode = or_empty (dict_get "postcode" components).
Proof.
  rewrite get_address_from_coordinates_cases. cbn [fst].
  unfold location_lookup_failed, location_not_found.
  destruct (nominatim env) as [r | e]; [|discriminate].
  destruct (Z.eqb_spec (status_code r) 200) as [Hs | Hs]; [|discriminate].
  destruct (json r) as [data | e] eqn:Hj; [|discriminate].
  destruct data as [| b | n | f | s | l | d | t]; cbn; try discriminate.
  - destruct (contains "display_name" s); discriminate.
  - destruct (existsb _ l); discriminate.
  - destruct (dict_get "display_name" d) as [name |] eqn:Hname; cbn; [|discriminate].
    destruct (dict_get "address" d) as [a |] eqn:Ha; cbn.
    + destruct a as [| b | n | f | s | l | components | t]; cbn; try discriminate.
      intros [= <- <- <- <- <-]. exists r, d, components. repeat split; auto.
    + intros [= <- <- <- <- <-]. exists r, d, []. repeat split; auto.
Qed.

Lemma get_address_from_coordinates_found_only_if_manila :
  fst (get_address_from_coordinates (request_of manila (Ok manila_reply) None)
         (field "latitude" manila) (field "longitude" manila) empty_world) =
    Ok (VDict [("full_address", VStr "Manila, Capital District, Philippines");
               ("city", VStr "Manila"); ("province", VStr "");
               ("country", VStr "Philippines"); ("postcode", VStr "1000")]) /\
  exists r d components,
    nominatim (request_of manila (Ok manila_reply) None) = Ok r /\
    status_code r = 200 /\ json r = Ok (VDict d) /\
    dict_get "display_name" d = Some (VStr "Manila, Capital District, Philippines") /\
    (dict_get "address" d = Some (VDict components) \/
     (dict_get "address" d = None /\ components = [])) /\
    VStr "Manila" = or_empty (dict_get "city" components) /\
    VStr "" = or_empty (dict_get "province" components) /\
    VStr "Philippines" = or_empty (dict_get "country" components) /\
    VStr "1000" = or_empty (dict_get "postcode" components).
Proof.
  split; [reflexivity|].
  apply (get_address_from_coordinates_found_only_if
           (request_of manila (Ok manila_reply) None)
           (field "latitude" manila) (field "longitude" manila) empty_world).
  reflexivity.
Defined.

(** A 200 reply in which [display_name] is found, but which is no object
    (a list holding the string, a string containing it) or whose
    [address] is there and is no object: the name is dropped and the
    record is the second fallback. *)
Theorem get_address_from_coordinates_malformed_reply
  (env : environment) (latitude longitude : value) (w : world)
  (r : http_response) (data : value) :
  nominatim env = Ok r -> status_code r = 200 -> json r = Ok data ->
  py_in "display_name" data = Ok true ->
  (forall d, data = VDict d ->
     exists a, dict_get "address" d = Some a /\ forall c, a <> VDict c) ->
  fst (get_address_from_coordinates env latitude longitude w) = Ok location_lookup_failed.
Proof.
  intros Hr Hs Hj Hin Hbad.
  rewrite get_address_from_coordinates_cases, Hr, Hs, Hj, Hin. cbn.
  destruct data as [| b | n | f | s | l | d | t]; try reflexivity.
  destruct (Hbad d eq_refl) as (a & Ha & Hno). cbn. rewrite Ha.
  destruct (dict_get "display_name" d) as [name |] eqn:Hname; cbn;
    [|cbn in Hin; rewrite Hname in Hin; discriminate].
  destruct a as [| b | n | f | s | l | c | t]; try reflexivity.
  destruct (Hno c). reflexivity.
Qed.

Lemma get_address_from_coordinates_malformed_reply_null_address :
  let data := VDict [("display_name", VStr "Manila"); ("address", VNone)] in
  let env := request_of manila (Ok {| status_code := 200; json := Ok data |}) None in
  nominatim env = Ok {| status_code := 200; json := Ok data |} /\
  status_code {| status_code := 200; json := Ok data |} = 200 /\
  json {| status_code := 200; json := Ok data |} = Ok data /\
  py_in "display_name" data = Ok true /\
  (forall d, data = VDict d ->
     exists a, dict_get "address" d = Some a /\ forall c, a <> VDict c) /\
  fst (get_address_from_coordinates env (VInt 14) (VInt 121) empty_world)
    = Ok location_lookup_failed.
Proof.
  cbv zeta.
  assert (Hbad : forall d,
             VDict [("display_name", VStr "Manila"); ("address", VNone)] = VDict d ->
             exists a, dict_get "address" d = Some a /\ forall c, a <> VDict c).
  { intros d [= <-]. exists VNone. split; [reflexivity | discriminate]. }
  repeat (split; [reflexivity|]). split; [exact Hbad|].
  apply (get_address_from_coordinates_malformed_reply
           (request_of manila
              (Ok {| status_code := 200;
                     json := Ok (VDict [("display_name", VStr "Manila");
                                        ("address", VNone)]) |}) None)
           (VInt 14) (VInt 121) empty_world
           {| status_code := 200;
              json := Ok (VDict [("display_name", VStr "Manila"); ("address", VNone)]) |}
           (VDict [("display_name", VStr "Manila"); ("address", VNone)]));
    (reflexivity || exact Hbad).
Defined.

(** ** More on the region validator *)

Lemma py_float_overflows
  (float_of_string : string -> option spec_float) (v : value) :
  overflows v = true <->
  py_float float_of_string v = Raise (OverflowError "int too large to convert to float").
Proof.
  destruct v as [| b | n | f | s | l | d | t]; cbn; try (split; discriminate).
  - destruct (float_of_Z n); split; (discriminate || reflexivity).
  - destruct (float_of_string s); split; discriminate.
Qed.

(** [is_within_philippines] raises exactly when the latitude is an int that
    rounds to no finite float, or the latitude converts and the longitude
    is such an int; what it raises is then the [OverflowError] of
    [float].  (A latitude that [float] refuses otherwise hides an
    overflowing longitude: the answer is [False].) *)
Theorem is_within_philippines_raises_iff
  (float_of_string : string -> option spec_float) (lat lon : value) (e : exn) :
  is_within_philippines float_of_string lat lon = Raise e <->
  e = OverflowError "int too large to convert to float" /\
  (overflows lat = true \/
   ((exists x, py_float float_of_string lat = Ok x) /\ overflows lon = true)).
Proof.
  rewrite !(py_float_overflows float_of_string).
  unfold is_within_philippines, is_within_philippines_body.
  destruct (py_float float_of_string lat) as [x | ex] eqn:Ex; cbn.
  - destruct (py_float float_of_string lon) as [y | ey] eqn:Ey; cbn.
    + split; [discriminate|]. intros [_ [H | [_ H]]]; discriminate.
    + pose proof (py_float_raises _ _ _ Ey) as Hey.
      destruct ey as [m | m | m | m | c m]; try contradiction.
      * split; [discriminate|]. intros [_ [H | [_ H]]]; discriminate.
      * split; [discriminate|]. intros [_ [H | [_ H]]]; discriminate.
      * destruct Hey as (n & -> & _). cbn in Ey.
        destruct (float_of_Z n); try discriminate. injection Ey as <-.
        split; [intros [= <-]; eauto | intros [-> _]; reflexivity].
  - pose proof (py_float_raises _ _ _ Ex) as Hex.
    destruct ex as [m | m | m | m | c m]; try contradiction.
    + split; [discriminate|]. intros [_ [H | [[x Hx] _]]]; discriminate.
    + split; [discriminate|]. intros [_ [H | [[x Hx] _]]]; discriminate.
    + destruct Hex as (n & -> & _). cbn in Ex.
      destruct (float_of_Z n); try discriminate. injection Ex as <-.
      split; [intros [= <-]; auto | intros [-> _]; reflexivity].
Qed.

Lemma inside_box_finite (x y : spec_float) :
  inside_box x y = true -> is_finite x = true /\ is_finite y = true.
Proof.
  unfold inside_box. rewrite !andb_true_iff. intros [[H1 H2] [H3 H4]].
  split.
  - destruct x as [s | [|] | | s m e]; try reflexivity; discriminate.
  - destruct y as [s | [|] | | s m e]; try reflexivity; discriminate.
Qed.

(** Coordinates the validator accepts convert to finite floats (a NaN or
    an infinity, which the JSON decoder lets through, is never accepted),
    and the floats they convert to, which are what the handler stores,
    are accepted again whatever the interpreter. *)
Theorem is_within_philippines_accepted_floats
  (float_of_string : string -> option spec_float) (lat lon : value) :
  is_within_philippines float_of_string lat lon = Ok true ->
  exists x y,
    py_float float_of_string lat = Ok x /\
    py_float float_of_string lon = Ok y /\
    is_finite x = true /\ is_finite y = true /\
    forall float_of_string',
      is_within_philippines float_of_string' (VFloat x) (VFloat y) = Ok true.
Proof.
  intros Hin.
  assert (Hc : exists x y, py_float float_of_string lat = Ok x /\
                           py_float float_of_string lon = Ok y).
  { revert Hin. unfold is_within_philippines, is_within_philippines_body.
    destruct (py_float float_of_string lat) as [x | []]; cbn; try discriminate.
    destruct (py_float float_of_string lon) as [y | []]; cbn; try discriminate.
    eauto. }
  destruct Hc as (x & y & Hx & Hy). exists x, y.
  rewrite (accepted_inside_box float_of_string lat lon x y Hx Hy) in Hin.
  injection Hin as Hbox.
  destruct (inside_box_finite x y Hbox) as [Fx Fy].
  repeat split; try assumption.
  intros float_of_string'.
  rewrite (accepted_inside_box float_of_string' (VFloat x) (VFloat y) x y eq_refl eq_refl).
  congruence.
Qed.

Lemma is_within_philippines_accepted_floats_manila :
  is_within_philippines no_strings (VFloat f14_5995) (VInt 121) = Ok true /\
  exists x y,
    py_float no_strings (VFloat f14_5995) = Ok x /\
    py_float no_strings (VInt 121) = Ok y /\
    is_finite x = true /\ is_finite y = true /\
    forall float_of_string',
      is_within_philippines float_of_string' (VFloat x) (VFloat y) = Ok true.
Proof.
  split; [reflexivity|].
  apply (is_within_philippines_accepted_floats no_strings (VFloat f14_5995) (VInt 121)).
  reflexivity.
Defined.

(** ** Bodies that are no object *)

(** A request whose body cannot be read, or is JSON but no object
    ([null], a list, a number, a string), is answered 500 with the text of
    the exception ([get_json]'s own, or the [AttributeError] of calling
    [.get] on the value); nothing is looked up and nothing is stored. *)
Theorem save_location_unusable_body
  (float_of_string : string -> option spec_float)
  (db : Database) (env : environment) (w : world) :
  (forall d, get_json env <> Ok (VDict d)) ->
  save_location float_of_string (Some db) env w =
    (Ok (error_response
           match get_json env with
           | Raise e => exn_str e
           | Ok v => "'" ++ type_name v ++ "' object has no attribute 'get'"
           end),
     w).
Proof.
  intros Hbody. unfold save_location, try_except, bind, lift, ret.
  destruct (get_json env) as [v | e]; [|reflexivity].
  destruct v as [| b | n | f | s | l | d | t]; try reflexivity.
  destruct (Hbody d). reflexivity.
Qed.

Lemma save_location_unusable_body_null :
  let env := {| get_json := Ok VNone; nominatim := Ok manila_reply;
                utcnow := 1710000000000000; new_oid := an_oid; store_fault := None |} in
  (forall d, get_json env <> Ok (VDict d)) /\
  save_location no_strings (Some location_tracker) env empty_world =
    (Ok (error_response "'NoneType' object has no attribute 'get'"), empty_world).
Proof.
  cbv zeta.
  assert (Hbody : forall d,
             get_json {| get_json := Ok VNone; nominatim := Ok manila_reply;
                         utcnow := 1710000000000000; new_oid := an_oid;
                         store_fault := None |} <> Ok (VDict d))
    by (intros d; discriminate).
  split; [exact Hbody|].
  exact (save_location_unusable_body no_strings location_tracker
           {| get_json := Ok VNone; nominatim := Ok manila_reply;
              utcnow := 1710000000000000; new_oid := an_oid; store_fault := None |}
           empty_world Hbody).
Defined.

Lemma saved_location_listed_first_second :
  let address := VDict [("full_address", VStr "Location lookup failed")] in
  let w' := stored (new_oid second_request)
              (location_record f14_5995 f120_9842 address (utcnow second_request))
              (sent (reverse_request (VFloat f14_5995) (VFloat f120_9842)) manila_saved) in
  let r := saved_response (new_oid second_request) address in
  let env' := request_of [] (Ok manila_reply) None in
  get_json second_request = Ok (VDict manila) /\
  save_location no_strings (Some location_tracker) second_request manila_saved = (Ok r, w') /\
  status r = 200 /\
  Forall (fun doc =>
            exists t, timestamp (fields doc) = Some t /\
                      millisecond t < millisecond (utcnow second_request))
    (collection manila_saved) /\
  store_fault env' = None /\
  exists lat lon address now rest,
    r = saved_response (new_oid second_request) address /\
    dispatch (get_locations env') w' =
      ({| body :=
            VList (VDict (("_id", VStr (oid_str (new_oid second_request)))
                            :: location_record lat lon address now)
                     :: rest);
          status := 200 |},
       w') /\
    py_float no_strings (field "latitude" manila) = Ok lat /\
    py_float no_strings (field "longitude" manila) = Ok lon /\
    millisecond now = millisecond (utcnow second_request).
Proof.
  cbv zeta.
  assert (Hold : Forall (fun doc =>
                           exists t, timestamp (fields doc) = Some t /\
                                     millisecond t < millisecond (utcnow second_request))
                   (collection manila_saved)).
  { repeat constructor. exists 1710000000000000. split; reflexivity. }
  split; [reflexivity|]. split; [reflexivity|]. split; [reflexivity|].
  split; [exact Hold|]. split; [reflexivity|].
  exact (saved_location_listed_first no_strings location_tracker second_request
           (request_of [] (Ok manila_reply) None) manila_saved _ manila _
           eq_refl eq_refl eq_refl Hold eq_refl).
Defined.

(** The second save and the list, evaluated: the second record first, the
    first behind it. *)
Example save_second_then_list :
  fst (dispatch (get_locations (request_of [] (Ok manila_reply) None))
         (snd (save_location no_strings (Some location_tracker) second_request
                 manila_saved)))
  = {| body :=
         VList [VDict (("_id", VStr "65f1c0ffee0123456789abce")
                         :: location_record f14_5995 f120_9842
                              (VDict [("full_address", VStr "Location lookup failed")])
                              1710000000001500);
                VDict (("_id", VStr "65f1c0ffee0123456789abcd")
                         :: location_record f14_5995 f120_9842 manila_address
                              1710000000000000)];
       status := 200 |}.
Proof. reflexivity. Qed.

Lemma serve_lists_location_records_manila :
  let calls := [POST_save_location (request_of manila (Ok manila_reply) None);
                POST_save_location (request_of new_york (Ok manila_reply) None);
                GET_locations (request_of [] (Ok manila_reply) None)] in
  Forall location_document (collection empty_world) /\
  In (GET_locations (request_of [] (Ok manila_reply) None), manila_listed)
    (fst (serve no_strings (Some location_tracker) calls empty_world)) /\
  (manila_listed = server_error \/
   exists records,
     manila_listed = {| body := VList (map VDict records); status := 200 |} /\
     (List.length records <= 50)%nat /\
     Forall (fun record =>
               exists id lat lon address now,
                 record = ("_id", VStr (oid_str id)) :: location_record lat lon address now /\
                 inside_box lat lon = true /\
                 address_record address)
       records).
Proof.
  cbv zeta.
  assert (Hin : In (GET_locations (request_of [] (Ok manila_reply) None), manila_listed)
                  (fst (serve no_strings (Some location_tracker)
                          [POST_save_location (request_of manila (Ok manila_reply) None);
                           POST_save_location (request_of new_york (Ok manila_reply) None);
                           GET_locations (request_of [] (Ok manila_reply) None)]
                          empty_world))).
  { right. right. left. reflexivity. }
  split; [constructor|]. split; [exact Hin|].
  exact (serve_lists_location_records no_strings (Some location_tracker)
           [POST_save_location (request_of manila (Ok manila_reply) None);
            POST_save_location (request_of new_york (Ok manila_reply) None);
            GET_locations (request_of [] (Ok manila_reply) None)]
           empty_world (request_of [] (Ok manila_reply) None) manila_listed
           (Forall_nil _) Hin).
Defined.

(** Three calls on the empty world: the Manila save is answered 200 and
    adds its document, the New York save is answered 400 and adds
    nothing, the list shows the one record; one lookup went out. *)
Example serve_manila_new_york_list :
  serve no_strings (Some location_tracker)
    [POST_save_location (request_of manila (Ok manila_reply) None);
     POST_save_location (request_of new_york (Ok manila_reply) None);
     GET_locations (request_of [] (Ok manila_reply) None)]
    empty_world
  = ([(POST_save_location (request_of manila (Ok manila_reply) None),
       saved_response an_oid manila_address);
      (POST_save_location (request_of new_york (Ok manila_reply) None),
       outside_response);
      (GET_locations (request_of [] (Ok manila_reply) None), manila_listed)],
     manila_saved).
Proof. reflexivity. Qed.

Lemma serve_collection_length
  (float_of_string : string -> option spec_float)
  (database : option Database) (calls : list http_call) (w : world) :
  List.length (collection (snd (serve float_of_string database calls w))) =
    (List.length (collection w)
     + List.length (filter saved (fst (serve float_of_string database calls w))))%nat.
Proof.
  revert w. induction calls as [| call calls IH]; intros w; cbn [serve].
  - cbn. lia.
  - destruct (handle_effect float_of_string database call w) as (added & Hc & _ & Hn & _).
    destruct (handle float_of_string database call w) as [r w1]. cbn [fst snd] in *.
    specialize (IH w1).
    destruct (serve float_of_string database calls w1) as [log w2]. cbn [fst snd] in *.
    rewrite IH, Hc, length_app, Hn. cbn [filter].
    destruct (saved (call, r)); cbn [List.length]; lia.
Qed.

(** After any sequence of calls, a list from a reachable store shows as
    many records as the collection held before plus one for each save
    answered 200, and 50 when that is more. *)
Theorem list_after_saves
  (float_of_string : string -> option spec_float)
  (database : option Database) (calls : list http_call) (w : world) (env : environment) :
  store_fault env = None ->
  exists records,
    fst (dispatch (get_locations env) (snd (serve float_of_string database calls w)))
      = {| body := VList (map VDict records); status := 200 |} /\
    List.length records =
      Nat.min 50
        (List.length (collection w)
         + List.length (filter saved (fst (serve float_of_string database calls w)))).
Proof.
  intros Hup.
  rewrite <- (serve_collection_length float_of_string database calls w).
  unfold dispatch, get_locations, bind, find_recent, ret, jsonify. rewrite Hup.
  eexists. split; [reflexivity|].
  rewrite length_map, length_firstn. f_equal. symmetry.
  apply Permutation_length, TimestampSort.Permuted_sort.
Qed.

Lemma list_after_saves_manila :
  let calls := [POST_save_location (request_of manila (Ok manila_reply) None);
                POST_save_location (request_of new_york (Ok manila_reply) None)] in
  let env := request_of [] (Ok manila_reply) None in
  store_fault env = None /\
  exists records,
    fst (dispatch (get_locations env)
           (snd (serve no_strings (Some location_tracker) calls empty_world)))
      = {| body := VList (map VDict records); status := 200 |} /\
    List.length records =
      Nat.min 50
        (List.length (collection empty_world)
         + List.length
             (filter saved
                (fst (serve no_strings (Some location_tracker) calls empty_world)))).
Proof.
  cbv zeta. split; [reflexivity|].
  apply (list_after_saves no_strings (Some location_tracker)
           [POST_save_location (request_of manila (Ok manila_reply) None);
            POST_save_location (request_of new_york (Ok manila_reply) None)]
           empty_world (request_of [] (Ok manila_reply) None)).
  reflexivity.
Defined.

(** Whatever happens, the body of the answer of [save_location] is an
    object whose [status] is "success" when the code is 200, with the
    identifier as a string and a record of the geocoder client, and
    [{status: "error", message: a string}] when the code is 400 or
    500. *)
Theorem save_location_response_shape
  (float_of_string : string -> option spec_float)
  (database : option Database) (env : environment) (w : world) :
  exists r w',
    save_location float_of_string database env w = (Ok r, w') /\
    ((status r = 200 /\
      exists id address,
        address_record address /\
        body r = VDict [("status", VStr "success"); ("message", VStr "Location saved");
                        ("id", VStr id); ("address", address)]) \/
     ((status r = 400 \/ status r = 500) /\
      exists message,
        body r = VDict [("status", VStr "error"); ("message", VStr message)])).
Proof.
  destruct (save_location_outcome float_of_string database env w) as (r & w' & Hrun & Hout).
  exists r, w'. split; [exact Hrun|].
  destruct Hout; [right | right | right | right | right | right | left];
    cbn; eauto 6.
Qed.
